(** * AI-Chat-App: a shallow embedding of [backend/agent.py], [backend/routes.py]
    and [main.py], and the properties of the retrieval, ingestion and chat
    paths.

    The application is a thin orchestration layer over third-party services:
    a FAISS vector store, a sentence-embedding model, a LangChain agent with a
    conversation buffer, a text splitter and a PDF reader.  The code of the
    repository is embedded definition by definition; the services it calls are
    either opaque members of the [External] interface (embedding model,
    language-model loop, REPL, PDF and text decoding, splitter) or, where the
    properties depend on what the service computes (the vector store, the
    conversation buffer), small executable models of the library call.

    Numbers: Python [int] is [Z]; the components of an embedding are exact
    integers standing for the float32 components of the real model. *)

From Stdlib Require Import ZArith Lia.
From stdpp Require Import base decidable option list sorting gmap strings pretty.

Local Open Scope string_scope.

(** ** Python: exceptions and fallible calls *)

Module Py.

(** An exception object: either FastAPI's [HTTPException] or any other
    subclass of [Exception], recorded with its class name and its [str()]. *)
Inductive PyExn : Type :=
| HTTPException (status_code : nat) (detail : string)
| Exception (cls : string) (msg : string).

(** [str(e)].  Starlette prints an [HTTPException] as [status: detail]. *)
Definition str (e : PyExn) : string :=
  match e with
  | HTTPException sc d => pretty sc ++ ": " ++ d
  | Exception _ msg => msg
  end.

(** The outcome of a call: it returns a value or raises. *)
Inductive result (A : Type) : Type :=
| Ok (a : A)
| Raise (e : PyExn).
Global Arguments Ok {A} a.
Global Arguments Raise {A} e.

Global Instance result_ret : MRet result := λ A a, Ok a.
Global Instance result_bind : MBind result := λ A B f m,
  match m with
  | Ok a => f a
  | Raise e => Raise e
  end.

Definition is_Ok {A} (r : result A) : bool :=
  match r with Ok _ => true | Raise _ => false end.

(** [not s] for an optional string: [None] and the empty string are falsy. *)
Definition falsy (o : option string) : bool :=
  match o with
  | None => true
  | Some s => bool_decide (s = "")
  end.

(** [s.endswith(suffix)] and [s.endswith((suf1, suf2, ...))]. *)
Definition endswith (s suffix : string) : bool :=
  bool_decide (String.list_ascii_of_string suffix `suffix_of` String.list_ascii_of_string s).

Definition endswith_any (s : string) (suffixes : list string) : bool :=
  existsb (endswith s) suffixes.

(** [sep.join(parts)]. *)
Fixpoint join (sep : string) (parts : list string) : string :=
  match parts with
  | [] => ""
  | [p] => p
  | p :: ps => p ++ sep ++ join sep ps
  end.

Definition nl : string := String (Ascii.ascii_of_nat 10) EmptyString.

End Py.
Import Py.

(** ** Embeddings and the FAISS vector store *)

Definition vector : Type := list Z.

(** Squared Euclidean distance, the metric of a flat L2 index. *)
Definition L2sqr (u v : vector) : Z :=
  foldr Z.add 0%Z (zip_with (λ a b, (a - b) * (a - b))%Z u v).

Record Document : Type := mkDocument { page_content : string }.

Module FAISS.

(** The store built by [FAISS.from_texts]: the chunks in insertion order,
    each with the embedding computed when it was added.  The position in
    the list is the id the index assigns to the chunk. *)
Record store : Type := mkStore { entries : list (string * vector) }.

Definition texts (st : store) : list string := (entries st).*1.
Definition ntotal (st : store) : nat := length (entries st).

(** [FAISS.from_texts(texts, embeddings)]: embeds every text and builds a
    flat L2 index whose dimension is read off the first embedding; with no
    text at all that read fails ([embeddings[0]] on an empty list). *)
Definition from_texts (embed : string → vector) (ts : list string) : result store :=
  match ts with
  | [] => Raise (Exception "IndexError" "list index out of range")
  | _ => Ok (mkStore (map (λ t, (t, embed t)) ts))
  end.

(** One candidate of a search: its distance to the query, its id, its text. *)
Record hit : Type := mkHit { dist : Z; idx : nat; text : string }.

(** The order in which the index ranks candidates: smaller distance first,
    and for equal distances smaller id first. *)
Definition hit_leb (a b : hit) : bool :=
  (dist a <? dist b)%Z || ((dist a =? dist b)%Z && (idx a <=? idx b)%nat).

Definition hit_le (a b : hit) : Prop := Is_true (hit_leb a b).

Global Instance hit_le_dec a b : Decision (hit_le a b) := Is_true_dec _.

Definition hit_lt (a b : hit) : Prop :=
  (dist a < dist b)%Z ∨ (dist a = dist b ∧ (idx a < idx b)%nat).

(** Every entry scored against the query vector. *)
Definition score (q : vector) (st : store) : list hit :=
  imap (λ i e, mkHit (L2sqr q e.2) i e.1) (entries st).

Definition ranked (q : vector) (st : store) : list hit :=
  merge_sort hit_le (score q st).

(** [store.similarity_search(query, k=k)]: the index refuses [k <= 0]
    ([assert k > 0]); otherwise the [k] best candidates, best first.  When
    the index holds fewer than [k] entries the missing slots (id -1) are
    skipped, so all entries are returned. *)
Definition similarity_search (embed : string → vector)
    (st : store) (query : string) (k : Z) : result (list Document) :=
  if (k <=? 0)%Z then Raise (Exception "AssertionError" "")
  else Ok (map (λ h, mkDocument (text h))
               (take (Z.to_nat k) (ranked (embed query) st))).

End FAISS.

(** ** LangChain objects held by the agent: tools and messages *)

Record Tool : Type := mkTool {
  name : string;
  func : string → string;
  description : string
}.

(** A stored message: [HumanMessage] or [AIMessage] with its content. *)
Inductive role : Type := Human | AI.
Global Instance role_eq_dec : EqDecision role.
Proof. solve_decision. Defined.

Abbreviation Message := (role * string)%type (only parsing).

(** ** Services the application calls but does not implement *)

(** Names follow the Python objects they stand for.  Every member is a pure
    function of its arguments; a member that can raise returns a [result]. *)
Class External : Type := {
  (** [HuggingFaceEmbeddings(model_name=...)]: text to vector, the same
      function for documents and for queries. *)
  embed : string → vector;
  (** [PythonREPL().run]: runs its argument as Python source and returns
      what was printed. *)
  PythonREPL_run : string → string;
  (** The reasoning loop of the agent executor (prompting the language
      model, invoking tools by name): from the registered tools, the stored
      messages and the input to the final output, or an exception. *)
  agent_call : list Tool → list Message → string → result string;
  (** [open(path, 'r', encoding='utf-8').read()] on the bytes of the file. *)
  decode_utf8 : string → result string;
  (** [pypdf]: [PdfReader(path).pages] and [page.extract_text()]. *)
  Page : Type;
  PdfReader_pages : string → result (list Page);
  extract_text : Page → result string;
  (** [RecursiveCharacterTextSplitter(chunk_size, chunk_overlap).split_text]. *)
  split_text : Z → Z → string → result (list string);
  (** [await file.read()] on an upload (its name and bytes): [None] when the
      bytes are returned, or the class and message of the exception the read
      raises. *)
  upload_read_error : string → string → option (string * string);
  (** [temp_file.write(content)]: [None] when the bytes are written, or the
      class and message of the exception the write raises. *)
  temp_write_error : string → option (string * string)
}.

(** The same services with another text splitter. *)
Definition with_split_text (E : External)
    (splitter : Z → Z → string → result (list string)) : External := {|
  embed := @embed E;
  PythonREPL_run := @PythonREPL_run E;
  agent_call := @agent_call E;
  decode_utf8 := @decode_utf8 E;
  Page := @Page E;
  PdfReader_pages := @PdfReader_pages E;
  extract_text := @extract_text E;
  split_text := splitter;
  upload_read_error := @upload_read_error E;
  temp_write_error := @temp_write_error E
|}.

(** ** The agent executor and its conversation buffer *)

Record ConversationBufferMemory : Type := mkMemory {
  memory_key : string;
  return_messages : bool;
  chat_memory : list Message
}.

(** The client keeps the key it reads from GOOGLE_API_KEY when it is built. *)
Record ChatGoogleGenerativeAI : Type := mkLLM {
  model : string;
  temperature : Z;
  google_api_key : string
}.

Record AgentExecutor : Type := mkAgentExecutor {
  tools : list Tool;
  llm : ChatGoogleGenerativeAI;
  agent_type : string;
  verbose : bool;
  memory : ConversationBufferMemory
}.

(** [memory.save_context(inputs, outputs)]: the input of the run as a human
    message, then its output as an AI message. *)
Definition save_context (m : ConversationBufferMemory) (input output : string)
    : ConversationBufferMemory :=
  mkMemory (memory_key m) (return_messages m)
           (chat_memory m ++ [(Human, input); (AI, output)]).

(** [executor.run(input)]: loads the stored messages, runs the reasoning
    loop, and saves the exchange only when the loop returned. *)
Definition AgentExecutor_run `{External} (ex : AgentExecutor) (input : string)
    : result (string * AgentExecutor) :=
  output ← agent_call (tools ex) (chat_memory (memory ex)) input;
  mret (output, mkAgentExecutor (tools ex) (llm ex) (agent_type ex) (verbose ex)
                                (save_context (memory ex) input output)).

(** ** The process environment *)

(** [os.environ] as a finite map; [load_dotenv()] adds the entries of the
    [.env] file without overriding variables that are already set. *)
Definition load_dotenv (dotenv environ : gmap string string) : gmap string string :=
  environ ∪ dotenv.

Definition getenv (environ : gmap string string) (key : string) : option string :=
  environ !! key.

(** ** backend/agent.py *)

Module Agent.
Section Agent.
Context `{External}.

Record AgentManager : Type := mkAgentManager {
  agent : AgentExecutor;
  vector_store : FAISS.store;
  embeddings : string
}.

Definition calculator : Tool :=
  mkTool "calculator" PythonREPL_run
    "Useful for when you need to perform mathematical calculations. Input should be a valid Python expression.".

(** The exception [_setup_agent] raises without a key. *)
Definition missing_key_error : PyExn :=
  Exception "ValueError" "GOOGLE_API_KEY environment variable is not set".

Definition _setup_agent (environ : gmap string string) : result AgentExecutor :=
  let google_api_key := getenv environ "GOOGLE_API_KEY" in
  if falsy google_api_key
  then Raise (Exception "ValueError" "GOOGLE_API_KEY environment variable is not set")
  else
    let llm := mkLLM "gemini-2.0-flash-001" 0 (default "" google_api_key) in
    let memory := mkMemory "chat_history" true [] in
    let tools := [calculator] in
    Ok (mkAgentExecutor tools llm "CONVERSATIONAL_REACT_DESCRIPTION" true memory).

(** [AgentManager()]: [__init__] calls [_initialize_components], which
    builds the embeddings, the vector store and then the agent. *)
Definition _initialize_components (environ : gmap string string) : result AgentManager :=
  let embeddings := "sentence-transformers/all-MiniLM-L6-v2" in
  vector_store ← FAISS.from_texts embed [""];
  agent ← _setup_agent environ;
  mret (mkAgentManager agent vector_store embeddings).

Definition update_vector_store (self : AgentManager) (texts : list string)
    : result AgentManager :=
  vs ← FAISS.from_texts embed texts;
  mret (mkAgentManager (agent self) vs (embeddings self)).

(** [get_similar_docs(query, k=3)]; the caller in [chat] leaves [k] at its
    default. *)
Definition get_similar_docs (self : AgentManager) (query : string) (k : Z)
    : result (list Document) :=
  FAISS.similarity_search embed (vector_store self) query k.

Definition run_agent (self : AgentManager) (prompt : string)
    : result (string * AgentManager) :=
  '(response, ex) ← AgentExecutor_run (agent self) prompt;
  mret (response, mkAgentManager ex (vector_store self) (embeddings self)).

End Agent.
End Agent.

(** ** backend/routes.py *)

Module Routes.
Section Routes.
Context `{External}.

(** An upload as the handler receives it: its name and the bytes that
    [await file.read()] returns. *)
Record UploadFile : Type := mkUploadFile { filename : string; content : string }.
Record ChatRequest : Type := mkChatRequest { question : string }.
Record ChatResponse : Type :=
  mkChatResponse { answer : string; reasoning : option string }.

(** What a handler can see and change: the module-level [agent_manager]
    and the directory of temporary files (path to bytes). *)
Record World : Type := mkWorld {
  agent_manager : Agent.AgentManager;
  tmpdir : gmap string string
}.

(** A handler step: runs in a world, returns or raises, leaves a world. *)
Definition M (A : Type) : Type := World → result A * World.

Global Instance M_ret : MRet M := λ A a w, (Ok a, w).
Global Instance M_bind : MBind M := λ A B f m w,
  match m w with
  | (Ok a, w') => f a w'
  | (Raise e, w') => (Raise e, w')
  end.

Definition raise {A} (e : PyExn) : M A := λ w, (Raise e, w).
Definition lift {A} (r : result A) : M A := λ w, (r, w).

(** [try: body except Exception as e: handler(e)]. *)
Definition try_except {A} (body : M A) (handler : PyExn → M A) : M A := λ w,
  match body w with
  | (Ok a, w') => (Ok a, w')
  | (Raise e, w') => handler e w'
  end.

(** [try: body finally: cleanup]: the cleanup runs on every exit of the
    body; if it raises, its exception replaces the outcome of the body. *)
Definition try_finally {A} (body : M A) (cleanup : M unit) : M A := λ w,
  let '(r, w') := body w in
  match cleanup w' with
  | (Ok _, w'') => (r, w'')
  | (Raise e, w'') => (Raise e, w'')
  end.

(** [tempfile.NamedTemporaryFile(delete=False)]: an empty file under a name
    not yet in the directory. *)
Definition NamedTemporaryFile : M string := λ w,
  let path := fresh (dom (tmpdir w)) in
  (Ok path, mkWorld (agent_manager w) (<[path := ""]> (tmpdir w))).

(** An exception given by its class and message. *)
Definition Exception_of (cm : string * string) : PyExn := Exception cm.1 cm.2.

(** [await file.read()]. *)
Definition UploadFile_read (file : UploadFile) : M string :=
  match upload_read_error (filename file) (content file) with
  | Some cm => raise (Exception_of cm)
  | None => mret (content file)
  end.

(** [temp_file.write(content)]; when the write raises, the file stays as it
    was created. *)
Definition temp_file_write (path content : string) : M unit := λ w,
  match temp_write_error content with
  | Some cm => (Raise (Exception_of cm), w)
  | None => (Ok (), mkWorld (agent_manager w) (<[path := content]> (tmpdir w)))
  end.

(** Lines 72-75, the [with] block before the [try]: it leaves the file in
    the directory on every exit, also when the read or the write raises. *)
Definition NamedTemporaryFile_write (file : UploadFile) : M string :=
  temp_file ← NamedTemporaryFile;
  content ← UploadFile_read file;
  temp_file_write temp_file content;;
  mret temp_file.

Definition FileNotFoundError (path : string) : PyExn :=
  Exception "FileNotFoundError" ("[Errno 2] No such file or directory: '" ++ path ++ "'").

Definition read_bytes (path : string) : M string := λ w,
  match tmpdir w !! path with
  | Some bytes => (Ok bytes, w)
  | None => (Raise (FileNotFoundError path), w)
  end.

Definition os_unlink (path : string) : M unit := λ w,
  match tmpdir w !! path with
  | Some _ => (Ok (), mkWorld (agent_manager w) (delete path (tmpdir w)))
  | None => (Raise (FileNotFoundError path), w)
  end.

(** [for page in reader.pages: text += page.extract_text()]. *)
Fixpoint extract_pages (pages : list Page) (text : string) : result string :=
  match pages with
  | [] => Ok text
  | page :: rest => t ← extract_text page; extract_pages rest (text ++ t)
  end.

(** Lines 78-86: the text of the stored upload, by extension. *)
Definition read_text (file : UploadFile) (temp_file_path : string) : M string :=
  if endswith (filename file) ".txt"
  then bytes ← read_bytes temp_file_path; lift (decode_utf8 bytes)
  else
    bytes ← read_bytes temp_file_path;
    pages ← lift (PdfReader_pages bytes);
    lift (extract_pages pages "").

Definition chunk_size : Z := 1000.
Definition chunk_overlap : Z := 200.

Definition update_vector_store (chunks : list string) : M unit := λ w,
  match Agent.update_vector_store (agent_manager w) chunks with
  | Ok am => (Ok (), mkWorld am (tmpdir w))
  | Raise e => (Raise e, w)
  end.

Definition get_similar_docs (query : string) (k : Z) : M (list Document) := λ w,
  (Agent.get_similar_docs (agent_manager w) query k, w).

Definition run_agent (prompt : string) : M string := λ w,
  match Agent.run_agent (agent_manager w) prompt with
  | Ok (response, am) => (Ok response, mkWorld am (tmpdir w))
  | Raise e => (Raise e, w)
  end.

Definition upload_file (file : UploadFile) : M string :=
  if negb (endswith_any (filename file) [".txt"; ".pdf"])
  then raise (HTTPException 400 "File must be .txt or .pdf")
  else
    temp_file_path ← NamedTemporaryFile_write file;
    try_finally
      (try_except
         (text ← read_text file temp_file_path;
          chunks ← lift (split_text chunk_size chunk_overlap text);
          update_vector_store chunks;;
          mret "File processed successfully")
         (λ e, raise (HTTPException 500 (str e))))
      (os_unlink temp_file_path).

(** The f-string of [chat]. *)
Definition build_prompt (context question : string) : string :=
  "You are a helpful AI assistant." ++ nl ++ nl ++
  "Context from documents (if available):" ++ nl ++
  context ++ nl ++ nl ++
  "User Question: " ++ question ++ nl ++ nl ++
  "Instructions:" ++ nl ++
  "- First, try to answer the question based on the provided context." ++ nl ++
  "- If the context does not contain the necessary information, rely on your general knowledge to answer." ++ nl ++
  "- If the question requires calculations, use the calculator tool." ++ nl ++
  "- Consider the conversation history when formulating your response." ++ nl ++ nl ++
  "Provide a clear, helpful, and accurate answer.".

Definition chat (request : ChatRequest) : M ChatResponse :=
  try_except
    (docs ← get_similar_docs (question request) 3;
     let context := join nl (page_content <$> docs) in
     let prompt := build_prompt context (question request) in
     response ← run_agent prompt;
     mret (mkChatResponse response None))
    (λ e, raise (HTTPException 500 (str e))).

Definition test_connection : M string := mret "Backend is working!".

(** What [upload_file] computes from an upload before it reaches the vector
    store: the bytes the [with] block received and stored, the text the body
    of the [try] extracts from the stored bytes, then the chunks. *)
Definition received (file : UploadFile) : result string :=
  match upload_read_error (filename file) (content file) with
  | Some cm => Raise (Exception_of cm)
  | None =>
      match temp_write_error (content file) with
      | Some cm => Raise (Exception_of cm)
      | None => Ok (content file)
      end
  end.

(** The world after the [with] block raised: the new, empty temporary file
    is all that changed. *)
Definition left_behind (w : World) : World :=
  mkWorld (agent_manager w) (<[fresh (dom (tmpdir w)) := ""]> (tmpdir w)).

Definition stored_text (file : UploadFile) (bytes : string) : result string :=
  if endswith (filename file) ".txt"
  then decode_utf8 bytes
  else pages ← PdfReader_pages bytes; extract_pages pages "".

Definition extracted_text (file : UploadFile) : result string :=
  bytes ← received file;
  stored_text file bytes.

Definition processed_chunks (file : UploadFile) : result (list string) :=
  text ← extracted_text file;
  split_text chunk_size chunk_overlap text.

End Routes.
End Routes.

(** ** main.py: the process *)

Module Main.
Section Main.
Context `{External}.
Import Routes.

(** A request that passed the validation of the framework and is handed to
    one of the three handlers. *)
Inductive Request : Type :=
| POST_upload (file : UploadFile)
| POST_chat (request : ChatRequest)
| GET_test.

Inductive Body : Type :=
| MessageBody (message : string)
| ChatBody (response : ChatResponse)
| DetailBody (detail : string).

Record Response : Type := mkResponse { status : nat; body : Body }.

(** What the framework sends for the outcome of a handler: the returned
    value with status 200, the status and detail of an [HTTPException], or
    a plain 500 for any other exception that escapes the handler. *)
Definition respond {A} (encode : A → Body) (r : result A) : Response :=
  match r with
  | Ok a => mkResponse 200 (encode a)
  | Raise (HTTPException sc d) => mkResponse sc (DetailBody d)
  | Raise (Exception _ _) => mkResponse 500 (DetailBody "Internal Server Error")
  end.

Definition handle (rq : Request) (w : World) : Response * World :=
  match rq with
  | POST_upload file => prod_map (respond MessageBody) id (upload_file file w)
  | POST_chat request => prod_map (respond ChatBody) id (chat request w)
  | GET_test => prod_map (respond MessageBody) id (test_connection w)
  end.

Fixpoint serve (rqs : list Request) (w : World) : list Response * World :=
  match rqs with
  | [] => ([], w)
  | rq :: rest =>
      let '(r, w1) := handle rq w in
      let '(rs, w2) := serve rest w1 in
      (r :: rs, w2)
  end.

(** Importing [backend.agent]: [load_dotenv()] and then the module-level
    [agent_manager = AgentManager()]. *)
Definition import_backend_agent (dotenv environ : gmap string string)
    : result Agent.AgentManager :=
  Agent._initialize_components (load_dotenv dotenv environ).

(** A run of the process: the import fails and the process dies with the
    exception, or the application is created and serves the requests. *)
Inductive Outcome : Type :=
| Crashed (e : PyExn)
| Served (responses : list Response) (w : World).

Definition run (dotenv environ tmp : gmap string string) (rqs : list Request)
    : Outcome :=
  match import_backend_agent dotenv environ with
  | Raise e => Crashed e
  | Ok am => let '(rs, w) := serve rqs (mkWorld am tmp) in Served rs w
  end.

(** The stored conversation of a world. *)
Definition messages (w : World) : list Message :=
  chat_memory (memory (Agent.agent (agent_manager w))).

(** The answer of a chat request that was served with a [ChatResponse]. *)
Definition chat_answer (rq : Request) (r : Response) : option string :=
  match rq, body r with
  | POST_chat _, ChatBody response => Some (answer response)
  | _, _ => None
  end.

Definition chat_answers (rqs : list Request) (rs : list Response) : list string :=
  omap (λ p, chat_answer p.1 p.2) (zip rqs rs).

(** The two messages one run of the agent stores, and the log of a
    sequence of runs given as (input, output) pairs. *)
Definition exchange (io : string * string) : list Message :=
  [(Human, io.1); (AI, io.2)].

Definition exchanges (ios : list (string * string)) : list Message :=
  ios ≫= exchange.

Definition count_role (r : role) (ms : list Message) : nat :=
  length (filter (λ m, m.1 = r) ms).

(** An upload that was answered with status 200. *)
Definition upload_succeeded (rq : Request) (r : Response) : bool :=
  match rq with
  | POST_upload _ => bool_decide (status r = 200%nat)
  | _ => false
  end.

End Main.
End Main.

(** ** A small instance of the interface, for evaluating the handlers

    Stand-ins chosen only so that every path of the handlers can be run; they
    are not the real services. *)

Module Demo.

Definition invalid_utf8 : string := String (Ascii.ascii_of_nat 255) EmptyString.

Definition services : External := {|
  embed := λ s, [Z.of_nat (String.length s)];
  PythonREPL_run := λ s, s;
  agent_call := λ _ _ _, Ok "Paris";
  decode_utf8 := λ b,
    if bool_decide (b = invalid_utf8)
    then Raise (Exception "UnicodeDecodeError" "invalid start byte")
    else Ok b;
  Page := string;
  PdfReader_pages := λ b,
    if bool_decide (b = "")
    then Raise (Exception "EmptyFileError" "Cannot read an empty file")
    else Ok [b];
  extract_text := λ p, Ok p;
  split_text := λ _ _ t, if bool_decide (t = "") then Ok [] else Ok [t];
  upload_read_error := λ _ _, None;
  temp_write_error := λ _, None
|}.

Definition environ : gmap string string := {[ "GOOGLE_API_KEY" := "secret" ]}.

Definition manager : Agent.AgentManager :=
  let ex := mkAgentExecutor [Agent.calculator (H := services)]
              (mkLLM "gemini-2.0-flash-001" 0 "secret") "CONVERSATIONAL_REACT_DESCRIPTION" true
              (mkMemory "chat_history" true []) in
  Agent.mkAgentManager ex
    (FAISS.mkStore [("", [0%Z])]) "sentence-transformers/all-MiniLM-L6-v2".

Definition world : Routes.World := Routes.mkWorld manager ∅.

(** The same services with a language-model backend that cannot be reached:
    every run of the agent raises. *)
Definition offline : External := {|
  embed := @embed services;
  PythonREPL_run := @PythonREPL_run services;
  agent_call := λ _ _ _, Raise (Exception "ConnectionError" "backend unreachable");
  decode_utf8 := @decode_utf8 services;
  Page := @Page services;
  PdfReader_pages := @PdfReader_pages services;
  extract_text := @extract_text services;
  split_text := @split_text services;
  upload_read_error := @upload_read_error services;
  temp_write_error := @temp_write_error services
|}.

(** The same services when reading an upload fails. *)
Definition interrupted : External := {|
  embed := @embed services;
  PythonREPL_run := @PythonREPL_run services;
  agent_call := @agent_call services;
  decode_utf8 := @decode_utf8 services;
  Page := @Page services;
  PdfReader_pages := @PdfReader_pages services;
  extract_text := @extract_text services;
  split_text := @split_text services;
  upload_read_error := λ _ _, Some ("OSError", "read of closed file");
  temp_write_error := @temp_write_error services
|}.


End Demo.

(** * Properties *)

(** ** The vector store *)

Section FAISS_facts.
Import FAISS.

Lemma hit_le_spec a b :
  hit_le a b ↔ (dist a < dist b)%Z ∨ (dist a = dist b ∧ (idx a ≤ idx b)%nat).
Proof.
  unfold hit_le, hit_leb.
  rewrite orb_True, andb_True, !Is_true_true.
  rewrite Z.ltb_lt, Z.eqb_eq, Nat.leb_le. tauto.
Qed.

Global Instance hit_le_trans : Transitive hit_le.
Proof. intros a b c. rewrite !hit_le_spec. lia. Qed.

Global Instance hit_le_total : Total hit_le.
Proof. intros a b. rewrite !hit_le_spec. lia. Qed.

Lemma from_texts_Ok embed ts st :
  from_texts embed ts = Ok st → ts ≠ [] ∧ st = mkStore (map (λ t, (t, embed t)) ts).
Proof. destruct ts; simpl; [done|]. intros [= <-]. done. Qed.

Lemma from_texts_texts embed ts st :
  from_texts embed ts = Ok st → texts st = ts.
Proof.
  intros [_ ->]%from_texts_Ok. unfold texts; simpl.
  induction ts as [|t ts IH]; simpl; [done|]. by f_equal.
Qed.

Lemma from_texts_nonempty embed ts :
  ts ≠ [] → ∃ st, from_texts embed ts = Ok st.
Proof. destruct ts; [done|]. eauto. Qed.

(** A scored candidate is an entry of the store at its own position. *)
Lemma elem_of_score q st h :
  h ∈ score q st ↔
  ∃ e, entries st !! idx h = Some e ∧ text h = e.1 ∧ dist h = L2sqr q e.2.
Proof.
  unfold score. rewrite elem_of_lookup_imap. split.
  - intros (i & e & -> & Hi). simpl. eauto.
  - intros (e & Hi & Ht & Hd). exists (idx h), e. split; [|done].
    destruct h; simpl in *; by subst.
Qed.

Lemma ranked_Permutation q st : ranked q st ≡ₚ score q st.
Proof. apply merge_sort_Permutation. Qed.

Lemma length_ranked q st : length (ranked q st) = ntotal st.
Proof.
  rewrite (Permutation_length (ranked_Permutation q st)).
  unfold score. by rewrite length_imap.
Qed.

Lemma score_idx q st : idx <$> score q st = seq 0 (ntotal st).
Proof.
  unfold score, ntotal. rewrite fmap_imap.
  rewrite (imap_ext _ (λ i _, id i)) by done.
  by rewrite imap_seq_0, list_fmap_id.
Qed.

End FAISS_facts.

Section Ranking.
Import FAISS.

Lemma StronglySorted_hit_lt (l : list hit) :
  StronglySorted hit_le l → NoDup (idx <$> l) → StronglySorted hit_lt l.
Proof.
  induction 1 as [|x l Hl IH Hx]; intros Hnd; [constructor|].
  rewrite fmap_cons, NoDup_cons in Hnd. destruct Hnd as [Hnotin Hnd].
  constructor; [by apply IH|].
  rewrite Forall_forall in Hx |- *. intros y Hy.
  specialize (Hx y Hy). apply hit_le_spec in Hx.
  assert (idx x ≠ idx y) as Hne.
  { intros Heq. apply Hnotin. rewrite Heq. by apply list_elem_of_fmap_2. }
  unfold hit_lt. lia.
Qed.

(** The ranking is the one strictly increasing arrangement of the scored
    entries: by distance, and by position of insertion among equals. *)
Lemma ranked_sorted q st : StronglySorted hit_lt (ranked q st).
Proof.
  apply StronglySorted_hit_lt.
  - apply (StronglySorted_merge_sort hit_le).
  - rewrite (ranked_Permutation q st), score_idx. apply NoDup_seq.
Qed.

Lemma similarity_search_Ok embed st query k docs :
  similarity_search embed st query k = Ok docs →
  (0 < k)%Z ∧
  docs = (λ h, mkDocument (text h)) <$> take (Z.to_nat k) (ranked (embed query) st).
Proof.
  unfold similarity_search. destruct (Z.leb_spec k 0); [done|].
  intros [= <-]. done.
Qed.

(** Whatever a search returns is a chunk of the store. *)
Lemma similarity_search_texts embed st query k docs d :
  similarity_search embed st query k = Ok docs →
  d ∈ docs → page_content d ∈ texts st.
Proof.
  intros [_ ->]%similarity_search_Ok (h & -> & Hh)%list_elem_of_fmap. simpl.
  apply subseteq_take in Hh. rewrite ranked_Permutation in Hh.
  apply elem_of_score in Hh as (e & He & -> & _).
  unfold texts. apply list_elem_of_fmap_2. by eapply list_elem_of_lookup_2.
Qed.

End Ranking.

(** ** backend/agent.py *)

Section Agent_properties.
Context `{External}.
Import Agent.

Lemma update_vector_store_Ok (self am : AgentManager) ts :
  update_vector_store self ts = Ok am →
  FAISS.from_texts embed ts = Ok (vector_store am) ∧
  agent am = agent self ∧ embeddings am = embeddings self.
Proof.
  unfold update_vector_store.
  destruct (FAISS.from_texts embed ts) as [st|e]; simpl; [|done].
  intros [= <-]. done.
Qed.

(** A non-empty chunk list is always ingested. *)
Lemma update_vector_store_total (self : AgentManager) ts :
  ts ≠ [] → ∃ am, update_vector_store self ts = Ok am.
Proof.
  intros [st Hst]%(from_texts_nonempty embed).
  unfold update_vector_store. rewrite Hst. simpl. eauto.
Qed.

(** With no chunk the store cannot be built: the call raises and the
    manager keeps the store it had. *)
Lemma update_vector_store_nil (self : AgentManager) :
  update_vector_store self [] =
  Raise (Exception "IndexError" "list index out of range").
Proof. reflexivity. Qed.

(** C1, as the code has it: an ingestion with a non-empty chunk list
    always completes and replaces the store by one built from exactly the
    given chunks, whatever the store held before; after a second such
    ingestion a chunk that only the first ingestion had is in no search
    result. *)
Theorem nonempty_ingestion_replaces_index (self : AgentManager)
    (texts1 texts2 : list string) :
  texts1 ≠ [] →
  texts2 ≠ [] →
  ∃ am1 am2,
    update_vector_store self texts1 = Ok am1 ∧
    update_vector_store am1 texts2 = Ok am2 ∧
    FAISS.from_texts embed texts1 = Ok (vector_store am1) ∧
    FAISS.texts (vector_store am1) = texts1 ∧
    FAISS.from_texts embed texts2 = Ok (vector_store am2) ∧
    FAISS.texts (vector_store am2) = texts2 ∧
    ∀ c query k docs,
      c ∈ texts1 → c ∉ texts2 →
      get_similar_docs am2 query k = Ok docs → mkDocument c ∉ docs.
Proof.
  intros Hne1 Hne2.
  destruct (update_vector_store_total self texts1 Hne1) as [am1 Hup1].
  destruct (update_vector_store_total am1 texts2 Hne2) as [am2 Hup2].
  exists am1, am2. split; [done|]. split; [done|].
  apply update_vector_store_Ok in Hup1 as (H1 & _).
  apply update_vector_store_Ok in Hup2 as (H2 & _).
  pose proof (from_texts_texts _ _ _ H1) as T1.
  pose proof (from_texts_texts _ _ _ H2) as T2.
  repeat split; try done.
  intros c query k docs _ Hnot Hsearch Hin.
  apply Hnot. rewrite <- T2.
  by apply (similarity_search_texts _ _ _ _ _ _ Hsearch Hin).
Qed.


(** C5: a search with [k <= 0] raises instead of returning a result. *)
Theorem get_similar_docs_nonpositive_k (self : AgentManager) (query : string) (k : Z) :
  (k ≤ 0)%Z →
  get_similar_docs self query k = Raise (Exception "AssertionError" "") ∧
  is_Ok (get_similar_docs self query k) = false.
Proof.
  intros Hk. unfold get_similar_docs, FAISS.similarity_search.
  destruct (Z.leb_spec k 0); [done|lia].
Qed.

End Agent_properties.

(** ** backend/routes.py: uploads *)

Section Upload_properties.
Context `{External}.
Import Routes.

Lemma temp_file_written (tmp : gmap string string) (path bytes : string) :
  <[path := bytes]> tmp !! path = Some bytes.
Proof. apply lookup_insert_eq. Qed.

Lemma temp_file_removed (tmp : gmap string string) created bytes :
  delete (fresh (dom tmp))
    (<[fresh (dom tmp) := bytes]> (<[fresh (dom tmp) := created]> tmp)) = tmp.
Proof.
  rewrite insert_insert_eq. apply delete_insert_id, not_elem_of_dom, is_fresh.
Qed.

Lemma temp_file_is_new (tmp : gmap string string) created :
  <[fresh (dom tmp) := created]> tmp ≠ tmp.
Proof.
  intros Heq. apply (f_equal (λ m : gmap string string, m !! fresh (dom tmp))) in Heq.
  rewrite lookup_insert_eq in Heq.
  pose proof (is_fresh (dom tmp)) as Hfresh.
  apply not_elem_of_dom in Hfresh. congruence.
Qed.

Local Ltac tmp_simpl :=
  simpl; rewrite ?temp_file_written; simpl; rewrite ?temp_file_removed.

Lemma received_Ok (file : UploadFile) bytes :
  received file = Ok bytes → bytes = content file.
Proof.
  unfold received.
  destruct (upload_read_error _ _); [done|].
  destruct (temp_write_error _); [done|]. by intros [= <-].
Qed.

Lemma received_Raise (file : UploadFile) e :
  received file = Raise e → ∃ cls msg, e = Exception cls msg.
Proof.
  unfold received, Exception_of.
  destruct (upload_read_error _ _) as [cm|]; [intros [= <-]; eauto|].
  destruct (temp_write_error _) as [cm|]; [intros [= <-]; eauto|done].
Qed.

Lemma processed_chunks_received (file : UploadFile) chunks :
  processed_chunks file = Ok chunks → received file = Ok (content file).
Proof.
  unfold processed_chunks, extracted_text.
  destruct (received file) as [bytes|e] eqn:Hr; simpl; [|done].
  by apply received_Ok in Hr as ->.
Qed.

(** The handler, case by case, for an accepted extension. *)
Lemma upload_file_accepted (file : UploadFile) (w : World) :
  endswith_any (filename file) [".txt"; ".pdf"] = true →
  upload_file file w =
  match received file with
  | Raise e => (Raise e, left_behind w)
  | Ok _ =>
      match processed_chunks file with
      | Raise e => (Raise (HTTPException 500 (str e)), w)
      | Ok chunks =>
          match Agent.update_vector_store (agent_manager w) chunks with
          | Raise e => (Raise (HTTPException 500 (str e)), w)
          | Ok am => (Ok "File processed successfully", mkWorld am (tmpdir w))
          end
      end
  end.
Proof.
  intros Hext. destruct w as [am tmp].
  unfold upload_file. rewrite Hext. simpl negb. cbv iota.
  unfold processed_chunks, extracted_text, received, stored_text, read_text,
    left_behind.
  unfold try_finally, try_except, mbind, M_bind, NamedTemporaryFile_write,
    NamedTemporaryFile, UploadFile_read, temp_file_write,
    read_bytes, os_unlink, update_vector_store.
  cbv [mbind M_bind mret M_ret lift raise]. simpl.
  destruct (upload_read_error (filename file) (content file)) as [cm|];
    simpl; [done|].
  destruct (temp_write_error (content file)) as [cm|]; simpl; [done|].
  destruct (endswith (filename file) ".txt"); tmp_simpl.
  - destruct (decode_utf8 (content file)) as [text|e]; tmp_simpl; [|done].
    destruct (split_text chunk_size chunk_overlap text) as [chunks|e];
      tmp_simpl; [|done].
    destruct (Agent.update_vector_store am chunks) as [am'|e]; by tmp_simpl.
  - destruct (PdfReader_pages (content file)) as [pages|e]; tmp_simpl; [|done].
    destruct (extract_pages pages "") as [text|e]; tmp_simpl; [|done].
    destruct (split_text chunk_size chunk_overlap text) as [chunks|e];
      tmp_simpl; [|done].
    destruct (Agent.update_vector_store am chunks) as [am'|e]; by tmp_simpl.
Qed.

(** The same when the chunks are known to have been computed. *)
Lemma upload_file_processed (file : UploadFile) (w : World) chunks :
  endswith_any (filename file) [".txt"; ".pdf"] = true →
  processed_chunks file = Ok chunks →
  upload_file file w =
  match Agent.update_vector_store (agent_manager w) chunks with
  | Raise e => (Raise (HTTPException 500 (str e)), w)
  | Ok am => (Ok "File processed successfully", mkWorld am (tmpdir w))
  end.
Proof.
  intros Hext Hchunks. rewrite upload_file_accepted by done.
  by rewrite (processed_chunks_received _ _ Hchunks), Hchunks.
Qed.

Lemma upload_file_rejected (file : UploadFile) (w : World) :
  endswith_any (filename file) [".txt"; ".pdf"] = false →
  upload_file file w = (Raise (HTTPException 400 "File must be .txt or .pdf"), w).
Proof. intros Hext. unfold upload_file. by rewrite Hext. Qed.

End Upload_properties.

Section Strings.

Lemma list_ascii_of_string_app (s t : string) :
  String.list_ascii_of_string (s ++ t) =
  (String.list_ascii_of_string s ++ String.list_ascii_of_string t)%list.
Proof. induction s as [|c s IH]; simpl; [done|]. by rewrite IH. Qed.

(** [endswith] is the suffix test on strings. *)
Lemma endswith_spec (s suffix : string) :
  endswith s suffix = true ↔ ∃ stem, s = stem ++ suffix.
Proof.
  unfold endswith. rewrite bool_decide_eq_true. split.
  - intros [k Hk]. exists (String.string_of_list_ascii k).
    rewrite <- (String.string_of_list_ascii_of_string s), Hk.
    rewrite <- (String.string_of_list_ascii_of_string suffix) at 2.
    rewrite <- (String.list_ascii_of_string_of_list_ascii k) at 1.
    rewrite <- list_ascii_of_string_app.
    by rewrite !String.string_of_list_ascii_of_string.
  - intros [stem ->]. exists (String.list_ascii_of_string stem).
    apply list_ascii_of_string_app.
Qed.

Lemma endswith_any_txt_pdf (s : string) :
  endswith_any s [".txt"; ".pdf"] = false ↔
  (∀ stem, s ≠ stem ++ ".txt") ∧ (∀ stem, s ≠ stem ++ ".pdf").
Proof.
  unfold endswith_any. simpl. rewrite orb_false_r, orb_false_iff.
  rewrite <- !not_true_iff_false, !endswith_spec.
  split; intros [Htxt Hpdf]; split.
  - intros stem Heq. apply Htxt. by exists stem.
  - intros stem Heq. apply Hpdf. by exists stem.
  - intros [stem Heq]. by apply (Htxt stem).
  - intros [stem Heq]. by apply (Hpdf stem).
Qed.

End Strings.

Section Upload_claims.
Context `{External}.
Import Routes.

(** How the computation before the vector store can fail. *)
Lemma processed_chunks_Raise (file : UploadFile) (e : PyExn) :
  processed_chunks file = Raise e ↔
  extracted_text file = Raise e ∨
  ∃ text, extracted_text file = Ok text ∧
          split_text chunk_size chunk_overlap text = Raise e.
Proof.
  unfold processed_chunks.
  destruct (extracted_text file) as [text|e']; simpl; split.
  - intros Hsplit. right. by exists text.
  - intros [[=]|(text' & [= <-] & Hsplit)]. done.
  - intros [= ->]. by left.
  - intros [[= ->]|(text' & [=] & _)]. done.
Qed.

(** C4: an upload whose name ends neither in .txt nor in .pdf is answered
    with status 400 and leaves the world (vector store and temporary
    directory) as it was; a failure of an accepted upload is answered with
    status 500, never with the status of the rejection. *)
Theorem upload_rejects_other_extensions (file : UploadFile) (w : World) :
  (∀ stem, filename file ≠ stem ++ ".txt") →
  (∀ stem, filename file ≠ stem ++ ".pdf") →
  upload_file file w =
    (Raise (HTTPException 400 "File must be .txt or .pdf"), w) ∧
  Main.handle (Main.POST_upload file) w =
    (Main.mkResponse 400 (Main.DetailBody "File must be .txt or .pdf"), w) ∧
  (∀ file' w' sc d w'',
     endswith_any (filename file') [".txt"; ".pdf"] = true →
     upload_file file' w' = (Raise (HTTPException sc d), w'') →
     sc = 500 ∧ sc ≠ 400).
Proof.
  intros Htxt Hpdf.
  assert (endswith_any (filename file) [".txt"; ".pdf"] = false) as Hext
    by by apply endswith_any_txt_pdf.
  split; [by apply upload_file_rejected|]. split.
  - unfold Main.handle. by rewrite upload_file_rejected.
  - intros file' w' sc d w'' Hok. rewrite upload_file_accepted by done.
    destruct (received file') as [bytes|e0] eqn:Hr.
    + destruct (processed_chunks file'); [|by intros [= <- _ _]].
      destruct (Agent.update_vector_store _ _); [done|by intros [= <- _ _]].
    + apply received_Raise in Hr as (cls & msg & ->). done.
Qed.

(** A failure inside the [try] (reading the stored file, extracting its
    text or splitting it) is answered with status 500 and the text of the
    exception, and the world is the one before the request: the vector store
    is the same and the temporary file is gone. *)
Theorem upload_processing_failure (file : UploadFile) (w : World)
    (bytes : string) (e : PyExn) :
  endswith_any (filename file) [".txt"; ".pdf"] = true →
  received file = Ok bytes →
  (stored_text file bytes = Raise e ∨
   ∃ text, stored_text file bytes = Ok text ∧
           split_text chunk_size chunk_overlap text = Raise e) →
  upload_file file w = (Raise (HTTPException 500 (str e)), w) ∧
  Main.handle (Main.POST_upload file) w =
    (Main.mkResponse 500 (Main.DetailBody (str e)), w).
Proof.
  intros Hext Hr Hfail.
  assert (processed_chunks file = Raise e) as Hp.
  { unfold processed_chunks, extracted_text. rewrite Hr. simpl.
    destruct Hfail as [->|(text & -> & Hsplit)]; [done|]. by simpl. }
  assert (upload_file file w = (Raise (HTTPException 500 (str e)), w)) as Hup
    by by rewrite upload_file_accepted, Hr, Hp.
  split; [done|]. unfold Main.handle. by rewrite Hup.
Qed.

(** C9, where the code misses it: when the read of the upload or the write
    of the temporary file raises (lines 72-75, before the [try]), the
    exception leaves the handler as it is and the framework answers 500; the
    vector store is untouched, but the temporary file created at line 72 is
    never unlinked: the directory has one file more than before. *)
Theorem upload_read_failure_leaves_temp_file (file : UploadFile) (w : World)
    (e : PyExn) :
  endswith_any (filename file) [".txt"; ".pdf"] = true →
  received file = Raise e →
  upload_file file w = (Raise e, left_behind w) ∧
  (Main.handle (Main.POST_upload file) w).1 =
    Main.mkResponse 500 (Main.DetailBody "Internal Server Error") ∧
  agent_manager (upload_file file w).2 = agent_manager w ∧
  tmpdir w !! fresh (dom (tmpdir w)) = None ∧
  tmpdir (upload_file file w).2 !! fresh (dom (tmpdir w)) = Some "" ∧
  tmpdir (upload_file file w).2 ≠ tmpdir w.
Proof.
  intros Hext Hr.
  assert (upload_file file w = (Raise e, left_behind w)) as Hup
    by by rewrite upload_file_accepted, Hr.
  split; [done|]. unfold Main.handle. rewrite Hup. simpl.
  apply received_Raise in Hr as (cls & msg & ->).
  split; [done|]. split; [done|]. split; [|split].
  - apply not_elem_of_dom, is_fresh.
  - apply lookup_insert_eq.
  - apply temp_file_is_new.
Qed.

End Upload_claims.

(** C8: every ingestion calls the splitter with the constants
    [chunk_size = 1000] and [chunk_overlap = 200], whatever the document: the
    handler cannot tell a splitter from the same splitter fixed at these two
    arguments, and after a successful upload the store holds the chunks the
    splitter returned at these arguments; the overlap is at most
    [chunk_size - 1]. *)
Theorem upload_chunking_is_fixed (E : External) :
  Routes.chunk_size = 1000%Z ∧ Routes.chunk_overlap = 200%Z ∧
  (Routes.chunk_overlap ≤ Routes.chunk_size - 1)%Z ∧
  (∀ splitter file w,
     Routes.upload_file (H := with_split_text E splitter) file w =
     Routes.upload_file
       (H := with_split_text E
               (λ _ _, splitter Routes.chunk_size Routes.chunk_overlap)) file w) ∧
  (∀ file w msg w',
     Routes.upload_file file w = (Ok msg, w') →
     ∃ text chunks,
       Routes.extracted_text file = Ok text ∧
       split_text Routes.chunk_size Routes.chunk_overlap text = Ok chunks ∧
       FAISS.texts (Agent.vector_store (Routes.agent_manager w')) = chunks).
Proof.
  split; [done|]. split; [done|]. split; [done|]. split.
  - intros splitter file w.
    destruct (endswith_any (Routes.filename file) [".txt"; ".pdf"]) eqn:Hext.
    + by rewrite !upload_file_accepted.
    + by rewrite !upload_file_rejected.
  - intros file w msg w'.
    destruct (endswith_any (Routes.filename file) [".txt"; ".pdf"]) eqn:Hext.
    + rewrite upload_file_accepted by done.
      destruct (Routes.received file) as [bytes|e0]; [|done].
      unfold Routes.processed_chunks.
      destruct (Routes.extracted_text file) as [text|e]; simpl; [|done].
      destruct (split_text _ _ text) as [chunks|e] eqn:Hsplit; [|done].
      destruct (Agent.update_vector_store _ chunks) as [am|e] eqn:Hup; [|done].
      intros [= _ <-]. exists text, chunks. split; [done|]. split; [done|].
      simpl. apply update_vector_store_Ok in Hup as (Hup & _).
      by apply from_texts_texts in Hup.
    + by rewrite upload_file_rejected.
Qed.

(** ** Start of the process and the registered tool *)

Section Startup_properties.
Context `{External}.
Import Agent.

Lemma getenv_load_dotenv_None (dotenv environ : gmap string string) key :
  getenv (load_dotenv dotenv environ) key = None ↔
  environ !! key = None ∧ dotenv !! key = None.
Proof. unfold getenv, load_dotenv. apply lookup_union_None. Qed.

Lemma _setup_agent_Ok (environ : gmap string string) ex :
  _setup_agent environ = Ok ex →
  falsy (getenv environ "GOOGLE_API_KEY") = false ∧
  ex = mkAgentExecutor [calculator]
         (mkLLM "gemini-2.0-flash-001" 0
                (default "" (getenv environ "GOOGLE_API_KEY")))
         "CONVERSATIONAL_REACT_DESCRIPTION" true (mkMemory "chat_history" true []).
Proof.
  unfold _setup_agent.
  destruct (falsy (getenv environ "GOOGLE_API_KEY")); [done|].
  by intros [= <-].
Qed.

Lemma _initialize_components_Ok (environ : gmap string string) am :
  _initialize_components environ = Ok am →
  _setup_agent environ = Ok (agent am) ∧
  vector_store am = FAISS.mkStore [("", embed "")].
Proof.
  unfold _initialize_components. simpl.
  destruct (_setup_agent environ) as [ex|e]; simpl; [|done].
  by intros [= <-].
Qed.

(** C6: with GOOGLE_API_KEY neither in the environment nor in the [.env]
    file, building the agent raises; the exception leaves the constructor
    and the import, and the process ends with it whatever requests were
    waiting: none is served and nothing runs the constructor again. *)
Theorem missing_api_key_stops_startup (dotenv environ : gmap string string) :
  environ !! "GOOGLE_API_KEY" = None →
  dotenv !! "GOOGLE_API_KEY" = None →
  _setup_agent (load_dotenv dotenv environ) = Raise missing_key_error ∧
  Main.import_backend_agent dotenv environ = Raise missing_key_error ∧
  ∀ tmp rqs, Main.run dotenv environ tmp rqs = Main.Crashed missing_key_error.
Proof.
  intros Henv Hdot.
  assert (_setup_agent (load_dotenv dotenv environ) = Raise missing_key_error)
    as Hsetup.
  { unfold _setup_agent.
    by rewrite (proj2 (getenv_load_dotenv_None dotenv environ _) (conj Henv Hdot)). }
  assert (Main.import_backend_agent dotenv environ = Raise missing_key_error)
    as Himport.
  { unfold Main.import_backend_agent, _initialize_components. simpl.
    by rewrite Hsetup. }
  split; [done|]. split; [done|].
  intros tmp rqs. unfold Main.run. by rewrite Himport.
Qed.

(** C7: when the process has started, the vector store holds exactly one
    chunk, the empty string, so it is not empty; this is the world the
    first request meets. *)
Theorem initial_store_is_placeholder (dotenv environ : gmap string string)
    (am : AgentManager) :
  Main.import_backend_agent dotenv environ = Ok am →
  FAISS.texts (vector_store am) = [""] ∧
  FAISS.ntotal (vector_store am) = 1%nat ∧
  ∀ tmp, Main.run dotenv environ tmp [] = Main.Served [] (Routes.mkWorld am tmp).
Proof.
  intros Himport. unfold Main.run. rewrite Himport.
  apply _initialize_components_Ok in Himport as [_ ->]. done.
Qed.

(** The agent is given one tool, named "calculator", whose function is
    [PythonREPL.run] itself: the repository puts nothing between the tool
    and the interpreter.  What the interpreter does with a string is not
    modelled. *)
Lemma calculator_is_python_repl (environ : gmap string string)
    (ex : AgentExecutor) :
  _setup_agent environ = Ok ex →
  tools ex = [calculator] ∧
  name calculator = "calculator" ∧
  ∀ t, t ∈ tools ex → name t = "calculator" →
       ∀ input, func t input = PythonREPL_run input.
Proof.
  intros Hex. apply _setup_agent_Ok in Hex as [_ ->].
  simpl. split; [done|]. split; [done|].
  intros t Ht%list_elem_of_singleton _ input. by subst t.
Qed.

End Startup_properties.

(** ** backend/routes.py: chat and the conversation memory *)

Section Chat_properties.
Context `{External}.
Import Routes Main.

Lemma run_agent_Ok (self am : Agent.AgentManager) prompt response :
  Agent.run_agent self prompt = Ok (response, am) →
  agent_call (tools (Agent.agent self))
             (chat_memory (memory (Agent.agent self))) prompt = Ok response ∧
  chat_memory (memory (Agent.agent am)) =
    (chat_memory (memory (Agent.agent self)) ++ [(Human, prompt); (AI, response)])%list ∧
  Agent.vector_store am = Agent.vector_store self.
Proof.
  unfold Agent.run_agent, AgentExecutor_run.
  destruct (agent_call _ _ prompt) as [out|e]; simpl; [|done].
  by intros [= <- <-].
Qed.

(** The prompt [chat] hands to the agent for a question in a world. *)
Lemma chat_prompt_defined (self : Agent.AgentManager) q :
  ∃ docs, Agent.get_similar_docs self q 3 = Ok docs.
Proof. unfold Agent.get_similar_docs, FAISS.similarity_search. simpl. eauto. Qed.

Lemma chat_Ok (request : ChatRequest) (w w' : World) (response : ChatResponse) :
  chat request w = (Ok response, w') →
  ∃ docs,
    Agent.get_similar_docs (agent_manager w) (question request) 3 = Ok docs ∧
    messages w' = (messages w ++
      exchange (build_prompt (join nl (page_content <$> docs)) (question request),
                answer response))%list ∧
    Agent.vector_store (agent_manager w') = Agent.vector_store (agent_manager w) ∧
    tmpdir w' = tmpdir w.
Proof.
  unfold chat, try_except, mbind, M_bind, get_similar_docs, run_agent, mret, M_ret.
  destruct (chat_prompt_defined (agent_manager w) (question request)) as [docs Hdocs].
  rewrite Hdocs. simpl.
  destruct (Agent.run_agent _ _) as [[resp am]|e] eqn:Hrun; simpl; [|done].
  intros [= <- <-]. exists docs. split; [done|].
  apply run_agent_Ok in Hrun as (_ & Hmem & Hvs). done.
Qed.

Lemma chat_Raise (request : ChatRequest) (w w' : World) (e : PyExn) :
  chat request w = (Raise e, w') → w' = w.
Proof.
  unfold chat, try_except, mbind, M_bind, get_similar_docs, run_agent, mret,
    M_ret, raise.
  destruct (Agent.get_similar_docs _ _ _) as [docs|e1]; simpl.
  - destruct (Agent.run_agent _ _) as [[resp am]|e2]; simpl; [done|].
    by intros [= _ <-].
  - by intros [= _ <-].
Qed.

Lemma upload_file_messages (file : UploadFile) (w : World) :
  messages (upload_file file w).2 = messages w.
Proof.
  destruct (endswith_any (filename file) [".txt"; ".pdf"]) eqn:Hext.
  - rewrite upload_file_accepted by done.
    destruct (received file) as [bytes|e0]; [|done].
    destruct (processed_chunks file) as [chunks|e]; [|done].
    destruct (Agent.update_vector_store _ chunks) as [am|e] eqn:Hup; [|done].
    apply update_vector_store_Ok in Hup as (_ & Hagent & _).
    unfold messages. simpl. by rewrite Hagent.
  - by rewrite upload_file_rejected.
Qed.

(** What one request adds to the memory: the exchange of a chat that was
    answered, and nothing otherwise. *)
Lemma handle_messages (rq : Request) (w w' : World) (r : Response) :
  handle rq w = (r, w') →
  match chat_answer rq r with
  | Some a => ∃ prompt, messages w' = (messages w ++ exchange (prompt, a))%list
  | None => messages w' = messages w
  end.
Proof.
  destruct rq as [file|request|]; simpl.
  - intros [= <- <-]. unfold chat_answer. by rewrite upload_file_messages.
  - destruct (chat request w) as [[response|e] w1] eqn:Hchat; simpl.
    + intros [= <- <-]. unfold chat_answer. simpl.
      apply chat_Ok in Hchat as (docs & _ & Hmem & _). eauto.
    + intros [= <- <-]. apply chat_Raise in Hchat as ->.
      unfold chat_answer. by destruct e.
  - by intros [= <- <-].
Qed.

Lemma count_role_exchanges (ios : list (string * string)) :
  count_role Human (exchanges ios) = length ios ∧
  count_role AI (exchanges ios) = length ios.
Proof.
  unfold count_role, exchanges.
  induction ios as [|io ios [IHh IHa]]; [done|].
  change ((io :: ios) ≫= exchange) with (exchange io ++ (ios ≫= exchange))%list.
  rewrite !filter_app, !length_app, IHh, IHa. done.
Qed.

(** The memory after a sequence of requests: one exchange per answered
    chat, in the order of the requests. *)
Lemma serve_messages (rqs : list Request) (w w' : World) (rs : list Response) :
  serve rqs w = (rs, w') →
  ∃ prompts,
    length prompts = length (chat_answers rqs rs) ∧
    messages w' = (messages w ++ exchanges (zip prompts (chat_answers rqs rs)))%list.
Proof.
  revert w rs. induction rqs as [|rq rqs IH]; intros w rs; simpl.
  - intros [= <- <-]. exists []. split; [done|]. by rewrite app_nil_r.
  - destruct (handle rq w) as [r w1] eqn:Hhandle.
    destruct (serve rqs w1) as [rs1 w2] eqn:Hserve.
    intros [= <- <-].
    destruct (IH _ _ Hserve) as (prompts & Hlen & Hmem).
    apply handle_messages in Hhandle.
    unfold chat_answers. simpl. fold (chat_answers rqs rs1).
    destruct (chat_answer rq r) as [a|]; simpl.
    + destruct Hhandle as [prompt Hw1]. exists (prompt :: prompts).
      split; [simpl; by rewrite Hlen|].
      rewrite Hmem, Hw1. unfold exchanges. simpl. by rewrite <- app_assoc.
    + exists prompts. split; [done|]. by rewrite Hmem, Hhandle.
Qed.

(** The store is never empty: it starts with the placeholder, an upload
    replaces it only by a store built from at least one chunk, and a chat
    leaves it alone. *)
Lemma handle_store_nonempty (rq : Request) (w w' : World) (r : Response) :
  handle rq w = (r, w') →
  FAISS.texts (Agent.vector_store (agent_manager w)) ≠ [] →
  FAISS.texts (Agent.vector_store (agent_manager w')) ≠ [].
Proof.
  destruct rq as [file|request|]; simpl.
  - intros [= _ <-] Hne.
    destruct (endswith_any (filename file) [".txt"; ".pdf"]) eqn:Hext;
      [|by rewrite upload_file_rejected].
    rewrite upload_file_accepted by done.
    destruct (received file) as [bytes|e0]; [|done].
    destruct (processed_chunks file) as [chunks|e]; [|done].
    destruct (Agent.update_vector_store _ chunks) as [am|e] eqn:Hup; [|done].
    apply update_vector_store_Ok in Hup as (Hup & _). simpl.
    rewrite (from_texts_texts _ _ _ Hup).
    by apply from_texts_Ok in Hup as [? _].
  - destruct (chat request w) as [[response|e] w1] eqn:Hchat; simpl.
    + intros [= _ <-] Hne.
      apply chat_Ok in Hchat as (_ & _ & _ & Hvs & _). by rewrite Hvs.
    + intros [= _ <-] Hne. by apply chat_Raise in Hchat as ->.
  - by intros [= _ <-].
Qed.

Lemma serve_store_nonempty (rqs : list Request) (w w' : World) (rs : list Response) :
  serve rqs w = (rs, w') →
  FAISS.texts (Agent.vector_store (agent_manager w)) ≠ [] →
  FAISS.texts (Agent.vector_store (agent_manager w')) ≠ [].
Proof.
  revert w rs. induction rqs as [|rq rqs IH]; intros w rs; simpl.
  - by intros [= _ <-].
  - destruct (handle rq w) as [r w1] eqn:Hhandle.
    destruct (serve rqs w1) as [rs1 w2] eqn:Hserve.
    intros [= _ <-] Hne. eapply IH; [done|].
    by eapply handle_store_nonempty.
Qed.

(** C2, as the code has it: a chat that returns an answer appends two
    entries to the memory, first the whole prompt that [chat] built around
    the question and the retrieved context (not the bare question) as the
    human entry, then the answer as the AI entry; after a sequence of
    requests with N answered chats the memory has grown by N such
    exchanges in order, N human and N AI entries. *)
Theorem chat_appends_prompt_and_answer :
  (∀ request w response w',
     chat request w = (Ok response, w') →
     ∃ docs,
       Agent.get_similar_docs (agent_manager w) (question request) 3 = Ok docs ∧
       messages w' = (messages w ++
         [(Human, build_prompt (join nl (page_content <$> docs)) (question request));
          (AI, answer response)])%list) ∧
  (∀ rqs w rs w',
     serve rqs w = (rs, w') →
     ∃ prompts,
       length prompts = length (chat_answers rqs rs) ∧
       messages w' = (messages w ++ exchanges (zip prompts (chat_answers rqs rs)))%list ∧
       count_role Human (messages w') =
         (count_role Human (messages w) + length (chat_answers rqs rs))%nat ∧
       count_role AI (messages w') =
         (count_role AI (messages w) + length (chat_answers rqs rs))%nat).
Proof.
  split.
  - intros request w response w' Hchat.
    apply chat_Ok in Hchat as (docs & Hdocs & Hmem & _). eauto.
  - intros rqs w rs w' Hserve.
    destruct (serve_messages _ _ _ _ Hserve) as (prompts & Hlen & Hmem).
    exists prompts. split; [done|]. split; [done|].
    destruct (count_role_exchanges (zip prompts (chat_answers rqs rs)))
      as [Hh Ha].
    rewrite Hmem. unfold count_role in *.
    rewrite !filter_app, !length_app, Hh, Ha, length_zip, Hlen.
    split; f_equal; lia.
Qed.

End Chat_properties.

(** ** The handlers evaluated on the concrete services *)

Section Evaluation.
Import Routes Main.

(** An answered chat stores the prompt, not the question: the claim that
    the human entry is the question fails on the first request. *)
Lemma chat_stores_prompt_not_question :
  ∃ response w',
    chat (H := Demo.services)
      (mkChatRequest "What is the capital of France?") Demo.world
      = (Ok response, w') ∧
    answer response = "Paris" ∧
    messages w' ≠
      (messages Demo.world ++
         [(Human, "What is the capital of France?"); (AI, "Paris")])%list.
Proof.
  eexists _, _. split; [vm_compute; reflexivity|]. split; [reflexivity|].
  vm_compute. intros [=].
Qed.

(** Four chunks whose embeddings are at distances 0, 1, 0 and 4 from the
    query: the two at distance 0 come first, in the order they were added. *)
Example search_breaks_ties_by_insertion :
  (am ← Agent.update_vector_store (H := Demo.services) Demo.manager
          ["bb"; "a"; "cc"; "dddd"];
   Agent.get_similar_docs (H := Demo.services) am "xx" 3)
  = Ok [mkDocument "bb"; mkDocument "cc"; mkDocument "a"].
Proof. vm_compute; reflexivity. Qed.

Example search_returns_all_when_few :
  (am ← Agent.update_vector_store (H := Demo.services) Demo.manager
          ["bb"; "a"; "cc"; "dddd"];
   Agent.get_similar_docs (H := Demo.services) am "xx" 10)
  = Ok [mkDocument "bb"; mkDocument "cc"; mkDocument "a"; mkDocument "dddd"].
Proof. vm_compute; reflexivity. Qed.

(** An upload with no text yields no chunk: the store cannot be rebuilt,
    the answer is 500 and the previous store stays. *)
Example upload_of_empty_text :
  upload_file (H := Demo.services) (mkUploadFile "empty.txt" "") Demo.world
  = (Raise (HTTPException 500 "list index out of range"), Demo.world).
Proof. vm_compute; reflexivity. Qed.

(** With the empty chunk list the ingestion raises and replaces nothing:
    the chunk of the previous ingestion is still what a search returns.  An
    upload of an empty text file reaches this case. *)
Lemma empty_ingestion_keeps_index :
  ∃ am1,
    Agent.update_vector_store (H := Demo.services) Demo.manager ["alpha"] = Ok am1 ∧
    Agent.update_vector_store (H := Demo.services) am1 []
      = Raise (Exception "IndexError" "list index out of range") ∧
    upload_file (H := Demo.services) (mkUploadFile "empty.txt" "") (mkWorld am1 ∅)
      = (Raise (HTTPException 500 "list index out of range"), mkWorld am1 ∅) ∧
    FAISS.texts (Agent.vector_store am1) = ["alpha"] ∧
    Agent.get_similar_docs (H := Demo.services) am1 "alpha" 1
      = Ok [mkDocument "alpha"].
Proof.
  eexists. split; [reflexivity|]. split; [reflexivity|].
  split; [vm_compute; reflexivity|]. split; [reflexivity|].
  vm_compute; reflexivity.
Qed.

Lemma nonempty_ingestion_replaces_index_witness :
  ∃ am1 am2,
    Agent.update_vector_store (H := Demo.services) Demo.manager ["alpha"; "beta"]
      = Ok am1 ∧
    Agent.update_vector_store (H := Demo.services) am1 ["beta"; "gamma"] = Ok am2 ∧
    FAISS.texts (Agent.vector_store am2) = ["beta"; "gamma"] ∧
    ∀ query k docs,
      Agent.get_similar_docs (H := Demo.services) am2 query k = Ok docs →
      mkDocument "alpha" ∉ docs.
Proof.
  destruct (nonempty_ingestion_replaces_index (H := Demo.services)
              Demo.manager ["alpha"; "beta"] ["beta"; "gamma"])
    as (am1 & am2 & Hup1 & Hup2 & _ & _ & _ & Htexts & Hgone).
  - intros [=].
  - intros [=].
  - exists am1, am2. split; [exact Hup1|]. split; [exact Hup2|].
    split; [exact Htexts|].
    intros query k docs. apply (Hgone "alpha").
    + apply list_elem_of_here.
    + intros Hin. by repeat (apply elem_of_cons in Hin as [[=]|Hin]);
        apply elem_of_nil in Hin.
Defined.


Lemma get_similar_docs_nonpositive_k_witness :
  (0 ≤ 0)%Z ∧
  Agent.get_similar_docs (H := Demo.services) Demo.manager "capital" 0
    = Raise (Exception "AssertionError" "") ∧
  is_Ok (Agent.get_similar_docs (H := Demo.services) Demo.manager "capital" 0)
    = false.
Proof.
  split; [lia|].
  apply (get_similar_docs_nonpositive_k (H := Demo.services)
           Demo.manager "capital" 0). lia.
Defined.

Lemma upload_rejects_other_extensions_witness :
  upload_file (H := Demo.services) (mkUploadFile "notes.docx" "text") Demo.world
    = (Raise (HTTPException 400 "File must be .txt or .pdf"), Demo.world).
Proof.
  assert (endswith_any "notes.docx" [".txt"; ".pdf"] = false) as Hext
    by (vm_compute; reflexivity).
  apply endswith_any_txt_pdf in Hext as [Htxt Hpdf].
  exact (proj1 (upload_rejects_other_extensions (H := Demo.services)
                  (mkUploadFile "notes.docx" "text") Demo.world Htxt Hpdf)).
Defined.

Lemma upload_processing_failure_witness :
  upload_file (H := Demo.services)
    (mkUploadFile "notes.txt" Demo.invalid_utf8) Demo.world
    = (Raise (HTTPException 500 "invalid start byte"), Demo.world).
Proof.
  apply (upload_processing_failure (H := Demo.services)
           (mkUploadFile "notes.txt" Demo.invalid_utf8) Demo.world
           Demo.invalid_utf8
           (Exception "UnicodeDecodeError" "invalid start byte")).
  - vm_compute; reflexivity.
  - vm_compute; reflexivity.
  - left. vm_compute; reflexivity.
Defined.

(** A .txt upload whose read raises: the answer is the framework's 500, the
    vector store is the one before, and the directory, empty before the
    request, holds the abandoned temporary file after it. *)
Lemma upload_read_failure_leaves_temp_file_witness :
  (handle (H := Demo.interrupted)
     (POST_upload (mkUploadFile "notes.txt" "Paris")) Demo.world).1
    = mkResponse 500 (DetailBody "Internal Server Error") ∧
  agent_manager (upload_file (H := Demo.interrupted)
                   (mkUploadFile "notes.txt" "Paris") Demo.world).2
    = Demo.manager ∧
  tmpdir (upload_file (H := Demo.interrupted)
            (mkUploadFile "notes.txt" "Paris") Demo.world).2
    ≠ tmpdir Demo.world.
Proof.
  destruct (upload_read_failure_leaves_temp_file (H := Demo.interrupted)
              (mkUploadFile "notes.txt" "Paris") Demo.world
              (Exception "OSError" "read of closed file"))
    as (_ & Hresp & Hsame & _ & _ & Hleft).
  - vm_compute; reflexivity.
  - vm_compute; reflexivity.
  - split; [exact Hresp|]. split; [exact Hsame|exact Hleft].
Defined.

Lemma missing_api_key_stops_startup_witness :
  run (H := Demo.services) ∅ ∅ ∅
      [GET_test; POST_chat (mkChatRequest "What is the capital of France?")]
  = Crashed Agent.missing_key_error.
Proof.
  apply (missing_api_key_stops_startup (H := Demo.services) ∅ ∅);
    reflexivity.
Defined.

Lemma initial_store_is_placeholder_witness :
  FAISS.texts (Agent.vector_store Demo.manager) = [""] ∧
  FAISS.ntotal (Agent.vector_store Demo.manager) = 1%nat ∧
  ∀ tmp, run (H := Demo.services) ∅ Demo.environ tmp []
         = Served [] (mkWorld Demo.manager tmp).
Proof.
  apply (initial_store_is_placeholder (H := Demo.services) ∅ Demo.environ).
  vm_compute; reflexivity.
Defined.

Lemma chat_appends_prompt_and_answer_witness :
  ∃ prompt,
    messages (chat (H := Demo.services)
                (mkChatRequest "What is the capital of France?") Demo.world).2
    = [(Human, prompt); (AI, "Paris")].
Proof.
  destruct (proj1 (chat_appends_prompt_and_answer (H := Demo.services))
              (mkChatRequest "What is the capital of France?") Demo.world
              (mkChatResponse "Paris" None)
              (chat (H := Demo.services)
                 (mkChatRequest "What is the capital of France?")
                 Demo.world).2) as (docs & _ & Hmem).
  - vm_compute; reflexivity.
  - eexists. exact Hmem.
Defined.

Lemma upload_chunking_is_fixed_witness :
  ∃ text chunks,
    extracted_text (H := Demo.services) (mkUploadFile "notes.txt" "Paris") = Ok text ∧
    split_text (External := Demo.services) 1000 200 text = Ok chunks ∧
    FAISS.texts (Agent.vector_store (agent_manager
      (upload_file (H := Demo.services)
         (mkUploadFile "notes.txt" "Paris") Demo.world).2)) = chunks.
Proof.
  apply (proj2 (proj2 (proj2 (proj2
           (upload_chunking_is_fixed Demo.services))))
           (mkUploadFile "notes.txt" "Paris") Demo.world
           "File processed successfully").
  vm_compute; reflexivity.
Defined.

End Evaluation.

(** * Further properties of the retrieval path *)

Section Distance.

Lemma L2sqr_nonneg (u v : vector) : (0 ≤ L2sqr u v)%Z.
Proof.
  unfold L2sqr. revert v. induction u as [|a u IH]; intros [|b v]; simpl; try lia.
  specialize (IH v). pose proof (Z.square_nonneg (a - b)). lia.
Qed.

Lemma L2sqr_diag (v : vector) : L2sqr v v = 0%Z.
Proof.
  unfold L2sqr. induction v as [|a v IH]; simpl; [done|].
  by rewrite IH, Z.sub_diag.
Qed.

End Distance.

Section Search_properties.
Context `{External}.
Import Agent.

(** The best candidate is at least as close as every scored entry. *)
Lemma ranked_head_minimal q st h hits x :
  FAISS.ranked q st = h :: hits → x ∈ FAISS.score q st →
  (FAISS.dist h ≤ FAISS.dist x)%Z.
Proof.
  intros Hr Hx. pose proof (ranked_sorted q st) as Hs.
  rewrite <- (ranked_Permutation q st), Hr in Hx. rewrite Hr in Hs.
  apply StronglySorted_inv in Hs as [_ Hall].
  apply elem_of_cons in Hx as [->|Hx]; [lia|].
  rewrite Forall_forall in Hall. specialize (Hall x Hx).
  unfold FAISS.hit_lt in Hall. lia.
Qed.

Lemma from_texts_entries ts st i :
  FAISS.from_texts embed ts = Ok st →
  FAISS.entries st !! i = (λ t, (t, embed t)) <$> ts !! i.
Proof.
  intros Hst. apply from_texts_Ok in Hst as [_ ->]. simpl.
  apply list_lookup_fmap.
Qed.

(** Ingesting the same chunks again changes nothing: the manager after the
    second ingestion is the manager after the first. *)
Theorem update_vector_store_idempotent (self am : AgentManager) (ts : list string) :
  update_vector_store self ts = Ok am →
  update_vector_store am ts = Ok am.
Proof.
  unfold update_vector_store.
  destruct (FAISS.from_texts embed ts) as [st|e]; simpl; [|done].
  by intros [= <-].
Qed.

(** A query that is itself one of the ingested chunks gets, as its first
    result, a chunk of the store whose embedding is at distance 0 from the
    query's; when no other chunk shares that embedding, the first result is
    the query chunk itself. *)
Theorem search_exact_match_first (self am : AgentManager) (ts : list string)
    (t : string) (k : Z) :
  update_vector_store self ts = Ok am →
  t ∈ ts →
  (0 < k)%Z →
  ∃ d docs,
    get_similar_docs am t k = Ok (d :: docs) ∧
    page_content d ∈ ts ∧
    L2sqr (embed t) (embed (page_content d)) = 0%Z ∧
    ((∀ s, s ∈ ts → L2sqr (embed t) (embed s) = 0%Z → s = t) →
     page_content d = t).
Proof.
  intros Hup Ht Hk. apply update_vector_store_Ok in Hup as (Hst & _).
  set (st := vector_store am) in *.
  apply list_elem_of_lookup in Ht as [i Hi].
  set (x := FAISS.mkHit (L2sqr (embed t) (embed t)) i t).
  assert (x ∈ FAISS.score (embed t) st) as Hx.
  { apply elem_of_score. exists (t, embed t). simpl.
    by rewrite (from_texts_entries _ _ _ Hst), Hi. }
  destruct (FAISS.ranked (embed t) st) as [|h hits] eqn:Hr.
  { rewrite <- (ranked_Permutation (embed t) st), Hr in Hx.
    by apply elem_of_nil in Hx. }
  pose proof (ranked_head_minimal _ _ _ _ _ Hr Hx) as Hmin.
  simpl in Hmin. rewrite L2sqr_diag in Hmin.
  assert (h ∈ FAISS.score (embed t) st) as Hh.
  { rewrite <- (ranked_Permutation (embed t) st), Hr. apply list_elem_of_here. }
  apply elem_of_score in Hh as (e & He & Htext & Hdist).
  rewrite (from_texts_entries _ _ _ Hst) in He.
  destruct (ts !! FAISS.idx h) as [s|] eqn:Hs; simpl in He; [|done].
  injection He as <-. simpl in Htext, Hdist.
  pose proof (L2sqr_nonneg (embed t) (embed s)) as Hnn.
  assert (L2sqr (embed t) (embed s) = 0%Z) as Hzero by lia.
  exists (mkDocument (FAISS.text h)),
         ((λ h, mkDocument (FAISS.text h)) <$> take (Z.to_nat k - 1) hits).
  rewrite Htext. simpl. split; [|split; [|split]].
  - unfold get_similar_docs, FAISS.similarity_search. fold st.
    destruct (Z.leb_spec k 0); [lia|]. rewrite Hr.
    destruct (Z.to_nat k) as [|n] eqn:Hn; [lia|]. simpl.
    by rewrite Htext, Nat.sub_0_r.
  - by eapply list_elem_of_lookup_2.
  - done.
  - intros Hinj. apply Hinj; [by eapply list_elem_of_lookup_2|done].
Qed.

End Search_properties.

(** * Further properties of the upload path *)

Section Suffixes.

Lemma length_list_ascii_of_string (s : string) :
  length (String.list_ascii_of_string s) = String.length s.
Proof. induction s as [|c s IH]; simpl; [done|]. by rewrite IH. Qed.

(** Two names that end in different extensions of the same length differ. *)
Lemma app_suffix_inj (s s' a b : string) :
  String.length a = String.length b → s ++ a = s' ++ b → a = b.
Proof.
  intros Hlen Heq. apply (f_equal String.list_ascii_of_string) in Heq.
  rewrite !list_ascii_of_string_app in Heq.
  apply app_inj_2 in Heq as [_ Heq];
    [|by rewrite !length_list_ascii_of_string].
  apply (f_equal String.string_of_list_ascii) in Heq.
  by rewrite !String.string_of_list_ascii_of_string in Heq.
Qed.

Lemma endswith_app_true (stem ext : string) : endswith (stem ++ ext) ext = true.
Proof. apply endswith_spec. by exists stem. Qed.

Lemma endswith_app_false (stem ext ext' : string) :
  String.length ext = String.length ext' → ext ≠ ext' →
  endswith (stem ++ ext) ext' = false.
Proof.
  intros Hlen Hne. apply not_true_iff_false. intros [p Hp]%endswith_spec.
  by apply Hne, (app_suffix_inj stem p).
Qed.

Lemma string_app_nil_r (s : string) : s ++ "" = s.
Proof.
  induction s as [|c s IH]; [done|].
  change (String c (s ++ "") = String c s). by rewrite IH.
Qed.

Lemma string_app_assoc (a b c : string) : (a ++ b) ++ c = a ++ (b ++ c).
Proof.
  induction a as [|x a IH]; [done|].
  change (String x ((a ++ b) ++ c) = String x (a ++ (b ++ c))). by rewrite IH.
Qed.

Lemma string_length_app (a b : string) :
  String.length (a ++ b) = (String.length a + String.length b)%nat.
Proof.
  induction a as [|x a IH]; [done|].
  change (S (String.length (a ++ b)) = S (String.length a + String.length b)).
  by rewrite IH.
Qed.

Lemma concat_empty_cons (t : string) (ts : list string) :
  String.concat "" (t :: ts) = t ++ String.concat "" ts.
Proof. destruct ts; [symmetry; apply string_app_nil_r|done]. Qed.

End Suffixes.

Section Upload_more.
Context `{External}.
Import Routes Main.

(** The guard looks at the last four characters, and at their case: a name
    ending in any other four characters is rejected with status 400 and the
    world is untouched. *)
Theorem upload_guard_is_exact (stem ext bytes : string) (w : World) :
  String.length ext = 4%nat → ext ≠ ".txt" → ext ≠ ".pdf" →
  upload_file (mkUploadFile (stem ++ ext) bytes) w =
    (Raise (HTTPException 400 "File must be .txt or .pdf"), w).
Proof.
  intros Hlen Htxt Hpdf. apply upload_file_rejected. simpl.
  unfold endswith_any. simpl.
  by rewrite !endswith_app_false.
Qed.

(** The text of a PDF is the texts of its pages, concatenated in page
    order after the text gathered so far. *)
Theorem extract_pages_Ok (pages : list Page) (acc text : string) :
  extract_pages pages acc = Ok text ↔
  ∃ texts,
    Forall2 (λ page t, extract_text page = Ok t) pages texts ∧
    text = acc ++ String.concat "" texts.
Proof.
  revert acc. induction pages as [|page pages IH]; intros acc; simpl.
  - split.
    + intros [= <-]. exists []. split; [constructor|].
      simpl. by rewrite string_app_nil_r.
    + intros (texts & Hall & ->). inversion Hall; subst.
      simpl. by rewrite string_app_nil_r.
  - destruct (extract_text page) as [t|e] eqn:Hpage; simpl.
    + rewrite IH. split.
      * intros (texts & Hall & ->). exists (t :: texts).
        split; [by constructor|].
        by rewrite concat_empty_cons, string_app_assoc.
      * intros (texts & Hall & ->).
        inversion Hall as [|? t0 ? texts0 Ht0 Hrest]; subst.
        rewrite Hpage in Ht0. injection Ht0 as <-.
        exists texts0. split; [done|].
        by rewrite concat_empty_cons, string_app_assoc.
    + split; [done|]. intros (texts & Hall & _).
      inversion Hall; subst. congruence.
Qed.

End Upload_more.

Section Upload_outcomes.
Context `{External}.
Import Routes Main.

(** When a PDF page cannot be extracted the whole extraction raises the
    exception of the first such page, and no text of later pages is read. *)
Theorem extract_pages_Raise (pages : list Page) (acc : string) (e : PyExn) :
  extract_pages pages acc = Raise e ↔
  ∃ before page after texts,
    pages = (before ++ page :: after)%list ∧
    Forall2 (λ page t, extract_text page = Ok t) before texts ∧
    extract_text page = Raise e.
Proof.
  revert acc. induction pages as [|page pages IH]; intros acc; simpl.
  - split; [done|]. intros (before & p & after & texts & Heq & _).
    by destruct before.
  - destruct (extract_text page) as [t|e'] eqn:Hpage; simpl.
    + rewrite IH. split.
      * intros (before & p & after & texts & -> & Hall & Hp).
        exists (page :: before), p, after, (t :: texts).
        split; [done|]. split; [by constructor|done].
      * intros (before & p & after & texts & Heq & Hall & Hp).
        destruct before as [|b before]; simpl in Heq.
        { injection Heq as <- <-. congruence. }
        injection Heq as <- ->.
        inversion Hall as [|? t0 ? texts0 Ht0 Hrest]; subst.
        by exists before, p, after, texts0.
    + split.
      * intros [= <-]. exists [], page, pages, []. split; [done|].
        split; [constructor|done].
      * intros (before & p & after & texts & Heq & Hall & Hp).
        destruct before as [|b before]; simpl in Heq.
        { injection Heq as <- <-. congruence. }
        injection Heq as <- ->.
        inversion Hall; subst. congruence.
Qed.

(** An accepted upload that yields at least one chunk always succeeds: the
    answer is the success message, the store holds exactly the chunks, and
    the agent with its conversation memory and the temporary directory are
    as before. *)
Theorem upload_succeeds (file : UploadFile) (w : World) (chunks : list string) :
  endswith_any (filename file) [".txt"; ".pdf"] = true →
  processed_chunks file = Ok chunks →
  chunks ≠ [] →
  ∃ w',
    upload_file file w = (Ok "File processed successfully", w') ∧
    FAISS.texts (Agent.vector_store (agent_manager w')) = chunks ∧
    Agent.agent (agent_manager w') = Agent.agent (agent_manager w) ∧
    tmpdir w' = tmpdir w ∧
    (handle (POST_upload file) w).1 =
      mkResponse 200 (MessageBody "File processed successfully").
Proof.
  intros Hext Hchunks Hne.
  destruct (update_vector_store_total (agent_manager w) chunks Hne) as [am Ham].
  exists (mkWorld am (tmpdir w)).
  assert (upload_file file w =
          (Ok "File processed successfully", mkWorld am (tmpdir w))) as Hup
    by by rewrite (upload_file_processed _ _ _ Hext Hchunks), Ham.
  split; [done|]. simpl.
  apply update_vector_store_Ok in Ham as (Hst & Hagent & _).
  split; [by apply from_texts_texts in Hst|]. split; [done|]. split; [done|].
  by rewrite Hup.
Qed.

(** An accepted upload from which the splitter gets no chunk (an empty
    text, for one) is answered with status 500, and the store keeps the
    previous corpus: an empty document does not clear the index. *)
Theorem upload_without_chunks (file : UploadFile) (w : World) :
  endswith_any (filename file) [".txt"; ".pdf"] = true →
  processed_chunks file = Ok [] →
  upload_file file w =
    (Raise (HTTPException 500 "list index out of range"), w) ∧
  handle (POST_upload file) w =
    (mkResponse 500 (DetailBody "list index out of range"), w).
Proof.
  intros Hext Hchunks.
  assert (upload_file file w =
          (Raise (HTTPException 500 "list index out of range"), w)) as Hup
    by by rewrite (upload_file_processed _ _ _ Hext Hchunks).
  split; [done|]. simpl. by rewrite Hup.
Qed.

Lemma serve_app (rqs1 rqs2 : list Request) (w : World) :
  serve (rqs1 ++ rqs2) w =
  let '(rs1, w1) := serve rqs1 w in
  let '(rs2, w2) := serve rqs2 w1 in
  ((rs1 ++ rs2)%list, w2).
Proof.
  revert w. induction rqs1 as [|rq rqs1 IH]; intros w; simpl.
  - by destruct (serve rqs2 w).
  - destruct (handle rq w) as [r w1]. rewrite IH.
    destruct (serve rqs1 w1) as [rs1 w2]. by destruct (serve rqs2 w2).
Qed.

(** The last upload defines the corpus: whatever requests were served
    before it, after an upload that yields at least one chunk the store
    holds exactly the chunks of that upload. *)
Theorem last_upload_defines_corpus (rqs : list Request) (file : UploadFile)
    (w w' : World) (rs : list Response) (chunks : list string) :
  endswith_any (filename file) [".txt"; ".pdf"] = true →
  processed_chunks file = Ok chunks →
  chunks ≠ [] →
  serve (rqs ++ [POST_upload file]) w = (rs, w') →
  FAISS.texts (Agent.vector_store (agent_manager w')) = chunks ∧
  last rs = Some (mkResponse 200 (MessageBody "File processed successfully")).
Proof.
  intros Hext Hchunks Hne. rewrite serve_app.
  destruct (serve rqs w) as [rs1 w1]. simpl.
  destruct (upload_succeeds file w1 chunks Hext Hchunks Hne)
    as (w2 & Hup & Htexts & _).
  rewrite Hup. simpl. intros [= <- <-]. split; [done|].
  by rewrite last_snoc.
Qed.

(** A chat after an upload is answered from the new corpus only: every
    chunk put in the context of its prompt is a chunk of that upload. *)
Theorem chat_after_upload_uses_new_corpus (file : UploadFile)
    (request : ChatRequest) (w w1 w2 : World) (msg : string)
    (response : ChatResponse) :
  upload_file file w = (Ok msg, w1) →
  chat request w1 = (Ok response, w2) →
  ∃ chunks docs,
    processed_chunks file = Ok chunks ∧
    Agent.get_similar_docs (agent_manager w1) (question request) 3 = Ok docs ∧
    (∀ d, d ∈ docs → page_content d ∈ chunks) ∧
    last (messages w2) = Some (AI, answer response) ∧
    (Human, build_prompt (join nl (page_content <$> docs)) (question request))
      ∈ messages w2.
Proof.
  intros Hup Hchat.
  destruct (endswith_any (filename file) [".txt"; ".pdf"]) eqn:Hext;
    [|by rewrite upload_file_rejected in Hup].
  rewrite upload_file_accepted in Hup by done.
  destruct (received file) as [bytes|e0]; [|done].
  destruct (processed_chunks file) as [chunks|e]; [|done].
  destruct (Agent.update_vector_store _ chunks) as [am|e] eqn:Ham; [|done].
  injection Hup as _ <-.
  apply update_vector_store_Ok in Ham as (Hst & _).
  apply from_texts_texts in Hst.
  apply chat_Ok in Hchat as (docs & Hdocs & Hmem & _).
  exists chunks, docs. split; [done|]. split; [done|]. split; [|split].
  - intros d Hd. rewrite <- Hst.
    by apply (similarity_search_texts _ _ _ _ _ _ Hdocs Hd).
  - rewrite Hmem. unfold exchange. simpl. by rewrite last_app.
  - rewrite Hmem. apply elem_of_app. right. apply list_elem_of_here.
Qed.

End Upload_outcomes.

(** * Further properties of the chat path *)

Section Chat_more.
Context `{External}.
Import Routes Main.

(** The prompt is the question and the context wrapped in 456 fixed
    characters, so it is never the question itself. *)
Theorem build_prompt_length (context q : string) :
  String.length (build_prompt context q) =
    (456 + String.length context + String.length q)%nat ∧
  build_prompt context q ≠ q.
Proof.
  assert (String.length (build_prompt context q) =
          (456 + String.length context + String.length q)%nat) as Hlen.
  { unfold build_prompt. rewrite !string_length_app. simpl. lia. }
  split; [done|]. intros Heq. rewrite Heq in Hlen. lia.
Qed.

Lemma chat_failure_status (request : ChatRequest) (w w' : World) (e : PyExn) :
  chat request w = (Raise e, w') → ∃ cause, e = HTTPException 500 (str cause).
Proof.
  unfold chat, try_except, mbind, M_bind, get_similar_docs, run_agent, mret,
    M_ret, raise.
  destruct (Agent.get_similar_docs _ _ _) as [docs|e1]; simpl.
  - destruct (Agent.run_agent _ _) as [[resp am]|e2]; simpl; [done|].
    intros [= <- _]. by exists e2.
  - intros [= <- _]. by exists e1.
Qed.

(** A chat fails only when the run of the agent raises (the retrieval with
    k = 3 cannot): the answer is status 500 with the text of that exception,
    and the world is unchanged, so nothing of the failed turn is remembered. *)
Theorem chat_failure_changes_nothing (request : ChatRequest) (w w' : World)
    (e : PyExn) :
  chat request w = (Raise e, w') →
  w' = w ∧
  ∃ docs cause,
    Agent.get_similar_docs (agent_manager w) (question request) 3 = Ok docs ∧
    agent_call (tools (Agent.agent (agent_manager w))) (messages w)
      (build_prompt (join nl (page_content <$> docs)) (question request))
      = Raise cause ∧
    e = HTTPException 500 (str cause) ∧
    handle (POST_chat request) w = (mkResponse 500 (DetailBody (str cause)), w).
Proof.
  intros Hchat. split; [by eapply chat_Raise|].
  destruct (chat_prompt_defined (agent_manager w) (question request))
    as [docs Hdocs].
  exists docs. revert Hchat. unfold handle.
  unfold chat, try_except, mbind, M_bind, get_similar_docs, run_agent, mret,
    M_ret, raise.
  rewrite Hdocs. simpl.
  unfold Agent.run_agent, AgentExecutor_run, messages.
  destruct (agent_call _ _ _) as [out|cause]; simpl; [done|].
  intros [= <- <-]. by exists cause.
Qed.

(** The answer of a chat is the output of the agent run on the prompt built
    from the question and the at most three nearest chunks, with the
    conversation so far; the [reasoning] field is never filled, and the
    vector store, the tools and the temporary directory are left alone. *)
Theorem chat_answer_is_agent_output (request : ChatRequest) (w w' : World)
    (response : ChatResponse) :
  chat request w = (Ok response, w') →
  ∃ docs,
    Agent.get_similar_docs (agent_manager w) (question request) 3 = Ok docs ∧
    length docs =
      Nat.min 3 (FAISS.ntotal (Agent.vector_store (agent_manager w))) ∧
    agent_call (tools (Agent.agent (agent_manager w))) (messages w)
      (build_prompt (join nl (page_content <$> docs)) (question request))
      = Ok (answer response) ∧
    reasoning response = None ∧
    Agent.vector_store (agent_manager w') = Agent.vector_store (agent_manager w) ∧
    tools (Agent.agent (agent_manager w')) = tools (Agent.agent (agent_manager w)) ∧
    tmpdir w' = tmpdir w.
Proof.
  destruct (chat_prompt_defined (agent_manager w) (question request))
    as [docs Hdocs].
  intros Hchat. exists docs. split; [done|]. split.
  { apply similarity_search_Ok in Hdocs as [_ ->].
    by rewrite length_fmap, length_take, length_ranked. }
  revert Hchat.
  unfold chat, try_except, mbind, M_bind, get_similar_docs, run_agent, mret,
    M_ret, raise.
  rewrite Hdocs. simpl.
  unfold Agent.run_agent, AgentExecutor_run, messages.
  destruct (agent_call _ _ _) as [out|cause]; simpl; [|done].
  by intros [= <- <-].
Qed.

End Chat_more.

(** * Further properties of the process *)

Section Process_properties.
Context `{External}.
Import Routes Main.

(** An empty GOOGLE_API_KEY in the environment counts as missing, and
    [load_dotenv] does not replace it by the value of the [.env] file:
    building the agent raises and the process ends with that exception. *)
Theorem empty_api_key_stops_startup (dotenv environ : gmap string string) :
  environ !! "GOOGLE_API_KEY" = Some "" →
  Agent._setup_agent (load_dotenv dotenv environ) = Raise Agent.missing_key_error ∧
  import_backend_agent dotenv environ = Raise Agent.missing_key_error ∧
  ∀ tmp rqs, run dotenv environ tmp rqs = Crashed Agent.missing_key_error.
Proof.
  intros Henv.
  assert (Agent._setup_agent (load_dotenv dotenv environ)
          = Raise Agent.missing_key_error) as Hsetup.
  { unfold Agent._setup_agent, getenv, load_dotenv.
    by rewrite (lookup_union_Some_l _ _ _ _ Henv). }
  assert (import_backend_agent dotenv environ = Raise Agent.missing_key_error)
    as Himport.
  { unfold import_backend_agent, Agent._initialize_components. simpl.
    by rewrite Hsetup. }
  split; [done|]. split; [done|].
  intros tmp rqs. unfold run. by rewrite Himport.
Qed.

Lemma serve_length (rqs : list Request) (w w' : World) (rs : list Response) :
  serve rqs w = (rs, w') → length rs = length rqs.
Proof.
  revert w w' rs. induction rqs as [|rq rqs IH]; intros w w' rs; simpl.
  - by intros [= <- _].
  - destruct (handle rq w) as [r w1]. destruct (serve rqs w1) as [rs1 w2] eqn:Hs.
    intros [= <- _]. simpl. f_equal. by apply (IH _ _ _ Hs).
Qed.

(** In a process that started, every request gets one response, and the
    vector store is never empty, whatever was uploaded: a search always has
    at least one chunk to return. *)
Theorem run_store_never_empty (dotenv environ tmp : gmap string string)
    (rqs : list Request) (rs : list Response) (w : World) :
  run dotenv environ tmp rqs = Served rs w →
  length rs = length rqs ∧
  FAISS.texts (Agent.vector_store (agent_manager w)) ≠ [] ∧
  ∀ query, ∃ d docs,
    Agent.get_similar_docs (agent_manager w) query 3 = Ok (d :: docs).
Proof.
  unfold run.
  destruct (import_backend_agent dotenv environ) as [am|e] eqn:Himport; [|done].
  destruct (serve rqs (mkWorld am tmp)) as [rs' w1] eqn:Hserve.
  intros [= <- <-]. split; [by eapply serve_length|].
  assert (FAISS.texts (Agent.vector_store (agent_manager w1)) ≠ []) as Hne.
  { eapply serve_store_nonempty; [done|]. simpl.
    apply _initialize_components_Ok in Himport as [_ ->]. done. }
  split; [done|]. intros query.
  unfold Agent.get_similar_docs, FAISS.similarity_search. simpl.
  destruct (FAISS.ranked (embed query) (Agent.vector_store (agent_manager w1)))
    as [|h hits] eqn:Hr; simpl; [|by eauto].
  apply (f_equal length) in Hr. rewrite length_ranked in Hr.
  unfold FAISS.texts in Hne. unfold FAISS.ntotal in Hr.
  destruct (FAISS.entries _); done.
Qed.

(** The conversation memory of a process is exactly the exchanges of its
    answered chats, in order: it starts empty, holds two entries per
    answered chat, and no request ever removes or rewrites an entry. *)
Theorem run_memory_is_chat_log (dotenv environ tmp : gmap string string)
    (rqs : list Request) (rs : list Response) (w : World) :
  run dotenv environ tmp rqs = Served rs w →
  ∃ prompts,
    length prompts = length (chat_answers rqs rs) ∧
    messages w = exchanges (zip prompts (chat_answers rqs rs)) ∧
    length (messages w) = (2 * length (chat_answers rqs rs))%nat.
Proof.
  unfold run.
  destruct (import_backend_agent dotenv environ) as [am|e] eqn:Himport; [|done].
  destruct (serve rqs (mkWorld am tmp)) as [rs' w1] eqn:Hserve.
  intros [= <- <-].
  destruct (serve_messages _ _ _ _ Hserve) as (prompts & Hlen & Hmem).
  assert (messages (mkWorld am tmp) = []) as Hinit.
  { apply _initialize_components_Ok in Himport as [Hs _].
    apply _setup_agent_Ok in Hs as [_ Hs]. unfold messages. simpl.
    by rewrite Hs. }
  rewrite Hinit in Hmem. simpl in Hmem.
  exists prompts. split; [done|]. split; [done|].
  rewrite Hmem. clear -Hlen.
  assert (∀ ios : list (string * string),
            length (exchanges ios) = (2 * length ios)%nat) as Hex.
  { induction ios as [|io ios IH]; [done|].
    change (exchanges (io :: ios)) with (exchange io ++ exchanges ios)%list.
    rewrite length_app, IH. simpl. lia. }
  rewrite Hex, length_zip. lia.
Qed.

(** Unless an upload is answered with 200, a request leaves the vector
    store as it was. *)
Lemma handle_keeps_store (rq : Request) (w w' : World) (r : Response) :
  handle rq w = (r, w') →
  upload_succeeded rq r = false →
  Agent.vector_store (agent_manager w') = Agent.vector_store (agent_manager w).
Proof.
  destruct rq as [file|request|]; simpl.
  - destruct (endswith_any (filename file) [".txt"; ".pdf"]) eqn:Hext;
      [|rewrite upload_file_rejected by done; by intros [= _ <-]].
    rewrite upload_file_accepted by done.
    destruct (received file) as [bytes|e0]; [|by intros [= _ <-]].
    destruct (processed_chunks file) as [chunks|e]; [|by intros [= _ <-]].
    destruct (Agent.update_vector_store _ chunks) as [am|e];
      [|by intros [= _ <-]].
    by intros [= <- _].
  - destruct (chat request w) as [[response|e] w1] eqn:Hchat; simpl.
    + intros [= _ <-] _. by apply chat_Ok in Hchat as (_ & _ & _ & Hvs & _).
    + intros [= _ <-] _. by apply chat_Raise in Hchat as ->.
  - by intros [= _ <-].
Qed.

Lemma serve_keeps_store (rqs : list Request) (w w' : World) (rs : list Response) :
  serve rqs w = (rs, w') →
  Forall (λ p, upload_succeeded p.1 p.2 = false) (zip rqs rs) →
  Agent.vector_store (agent_manager w') = Agent.vector_store (agent_manager w).
Proof.
  revert w w' rs. induction rqs as [|rq rqs IH]; intros w w' rs; simpl.
  - by intros [= _ <-].
  - destruct (handle rq w) as [r w1] eqn:Hhandle.
    destruct (serve rqs w1) as [rs1 w2] eqn:Hserve.
    intros [= <- <-] Hall. simpl in Hall.
    apply Forall_cons in Hall as [Hhead Hall].
    rewrite (IH _ _ _ Hserve Hall).
    by apply (handle_keeps_store _ _ _ _ Hhandle).
Qed.

(** From the start of the process until an upload is answered with 200,
    whatever chats and failed uploads were served in between, every search
    with a positive [k] finds the placeholder alone, so the context that
    [chat] puts in the prompt is the empty string. *)
Theorem search_before_ingestion (dotenv environ tmp : gmap string string)
    (rqs : list Request) (rs : list Response) (w : World)
    (query : string) (k : Z) :
  run dotenv environ tmp rqs = Served rs w →
  Forall (λ p, upload_succeeded p.1 p.2 = false) (zip rqs rs) →
  (0 < k)%Z →
  Agent.get_similar_docs (agent_manager w) query k = Ok [mkDocument ""] ∧
  (∀ docs, Agent.get_similar_docs (agent_manager w) query 3 = Ok docs →
           join nl (page_content <$> docs) = "").
Proof.
  unfold run.
  destruct (import_backend_agent dotenv environ) as [am|e] eqn:Himport; [|done].
  destruct (serve rqs (mkWorld am tmp)) as [rs' w1] eqn:Hserve.
  intros [= <- <-] Hall Hk.
  pose proof (serve_keeps_store _ _ _ _ Hserve Hall) as Hst. simpl in Hst.
  apply _initialize_components_Ok in Himport as [_ Hinit].
  rewrite Hinit in Hst.
  assert (∀ k', (0 < k')%Z →
            Agent.get_similar_docs (agent_manager w1) query k'
            = Ok [mkDocument ""]) as Hsearch.
  { intros k' Hk'. unfold Agent.get_similar_docs, FAISS.similarity_search.
    rewrite Hst. destruct (Z.leb_spec k' 0); [lia|].
    destruct (Z.to_nat k') as [|n] eqn:Hn; [lia|].
    unfold FAISS.ranked, FAISS.score, merge_sort. simpl. by destruct n. }
  split; [by apply Hsearch|].
  intros docs. rewrite Hsearch by lia. by intros [= <-].
Qed.

(** Of a request handed to one of the three handlers: the response has
    status 200, 400 or 500; 400 is the rejected upload and nothing else; a
    request that is not answered with 200 leaves the agent manager (vector
    store and conversation memory) exactly as it was; the test route
    answers 200 and touches nothing. *)
Theorem handle_status (rq : Request) (w w' : World) (r : Response) :
  handle rq w = (r, w') →
  (status r = 200 ∨ status r = 400 ∨ status r = 500)%nat ∧
  (status r = 400%nat →
   ∃ file, rq = POST_upload file ∧
           endswith_any (filename file) [".txt"; ".pdf"] = false) ∧
  (status r ≠ 200%nat → agent_manager w' = agent_manager w) ∧
  (rq = GET_test → r = mkResponse 200 (MessageBody "Backend is working!") ∧ w' = w).
Proof.
  destruct rq as [file|request|]; simpl.
  - destruct (endswith_any (filename file) [".txt"; ".pdf"]) eqn:Hext.
    + rewrite upload_file_accepted by done.
      destruct (received file) as [bytes|e0] eqn:Hr.
      * destruct (processed_chunks file) as [chunks|e]; simpl.
        -- destruct (Agent.update_vector_store _ chunks) as [am|e]; simpl;
             intros [= <- <-]; simpl; repeat split; auto; try done; lia.
        -- intros [= <- <-]; simpl; repeat split; auto; try done; lia.
      * apply received_Raise in Hr as (cls & msg & ->).
        intros [= <- <-]; simpl; repeat split; auto; try done; lia.
    + rewrite upload_file_rejected by done. intros [= <- <-]. simpl.
      repeat split; auto; try done. intros _. by exists file.
  - destruct (chat request w) as [[response|e] w1] eqn:Hchat; simpl.
    + intros [= <- <-]. simpl. repeat split; auto; try done.
    + intros [= <- <-].
      destruct (chat_failure_status _ _ _ _ Hchat) as [cause ->].
      apply chat_Raise in Hchat as ->. simpl.
      repeat split; auto; try done; lia.
  - intros [= <- <-]. simpl. repeat split; auto; done.
Qed.

End Process_properties.

(** ** The further properties evaluated on the concrete services *)

Section Evaluation_more.
Import Routes Main.

Lemma update_vector_store_idempotent_witness :
  ∃ am,
    Agent.update_vector_store (H := Demo.services) Demo.manager ["alpha"; "beta"]
      = Ok am ∧
    Agent.update_vector_store (H := Demo.services) am ["alpha"; "beta"] = Ok am.
Proof.
  eexists. split; [reflexivity|].
  apply (update_vector_store_idempotent (H := Demo.services) Demo.manager).
  reflexivity.
Defined.

Lemma search_exact_match_first_witness :
  ∃ am d docs,
    Agent.update_vector_store (H := Demo.services) Demo.manager ["bb"; "a"; "cc"]
      = Ok am ∧
    Agent.get_similar_docs (H := Demo.services) am "cc" 2 = Ok (d :: docs) ∧
    L2sqr (embed (External := Demo.services) "cc")
          (embed (External := Demo.services) (page_content d)) = 0%Z.
Proof.
  edestruct (search_exact_match_first (H := Demo.services) Demo.manager _
               ["bb"; "a"; "cc"] "cc" 2 eq_refl)
    as (d & docs & Hsearch & _ & Hzero & _).
  - do 2 apply list_elem_of_further. apply list_elem_of_here.
  - lia.
  - eexists _, d, docs. split; [reflexivity|]. split; [exact Hsearch|exact Hzero].
Defined.

Lemma search_before_ingestion_witness :
  Agent.get_similar_docs (H := Demo.services)
    (agent_manager
       (serve (H := Demo.services)
          [POST_chat (mkChatRequest "Where?");
           POST_upload (mkUploadFile "empty.txt" "")] Demo.world).2)
    "capital" 2
  = Ok [mkDocument ""].
Proof.
  eapply (search_before_ingestion (H := Demo.services) ∅ Demo.environ ∅
            [POST_chat (mkChatRequest "Where?");
             POST_upload (mkUploadFile "empty.txt" "")]).
  - vm_compute; reflexivity.
  - repeat constructor.
  - lia.
Defined.

Lemma empty_api_key_stops_startup_witness :
  run (H := Demo.services) {[ "GOOGLE_API_KEY" := "secret" ]}
      {[ "GOOGLE_API_KEY" := "" ]} ∅ [GET_test]
  = Crashed Agent.missing_key_error.
Proof.
  apply (empty_api_key_stops_startup (H := Demo.services)
           {[ "GOOGLE_API_KEY" := "secret" ]} {[ "GOOGLE_API_KEY" := "" ]}).
  reflexivity.
Defined.

Lemma upload_guard_is_exact_witness :
  upload_file (H := Demo.services) (mkUploadFile ("NOTES" ++ ".TXT") "text")
    Demo.world
  = (Raise (HTTPException 400 "File must be .txt or .pdf"), Demo.world).
Proof.
  apply (upload_guard_is_exact (H := Demo.services) "NOTES" ".TXT" "text"
           Demo.world).
  - reflexivity.
  - intros [=].
  - intros [=].
Defined.

Lemma upload_succeeds_witness :
  ∃ w',
    upload_file (H := Demo.services) (mkUploadFile "notes.txt" "Paris") Demo.world
      = (Ok "File processed successfully", w') ∧
    FAISS.texts (Agent.vector_store (agent_manager w')) = ["Paris"].
Proof.
  destruct (upload_succeeds (H := Demo.services)
              (mkUploadFile "notes.txt" "Paris") Demo.world ["Paris"])
    as (w' & Hup & Htexts & _).
  - vm_compute; reflexivity.
  - vm_compute; reflexivity.
  - intros [=].
  - exists w'. split; [exact Hup|exact Htexts].
Defined.

Lemma upload_without_chunks_witness :
  upload_file (H := Demo.services) (mkUploadFile "empty.txt" "") Demo.world
  = (Raise (HTTPException 500 "list index out of range"), Demo.world).
Proof.
  apply (upload_without_chunks (H := Demo.services)
           (mkUploadFile "empty.txt" "") Demo.world).
  - vm_compute; reflexivity.
  - vm_compute; reflexivity.
Defined.

Lemma last_upload_defines_corpus_witness :
  FAISS.texts (Agent.vector_store (agent_manager
    (serve (H := Demo.services)
       ([POST_upload (mkUploadFile "old.txt" "Berlin");
         POST_chat (mkChatRequest "Where?")] ++
        [POST_upload (mkUploadFile "notes.txt" "Paris")]) Demo.world).2))
  = ["Paris"].
Proof.
  eapply (last_upload_defines_corpus (H := Demo.services)
            [POST_upload (mkUploadFile "old.txt" "Berlin");
             POST_chat (mkChatRequest "Where?")]
            (mkUploadFile "notes.txt" "Paris") Demo.world).
  - vm_compute; reflexivity.
  - vm_compute; reflexivity.
  - intros [=].
  - apply surjective_pairing.
Defined.

Lemma chat_after_upload_uses_new_corpus_witness :
  ∃ chunks docs,
    processed_chunks (H := Demo.services) (mkUploadFile "notes.txt" "Paris")
      = Ok chunks ∧
    Agent.get_similar_docs (H := Demo.services)
      (agent_manager (upload_file (H := Demo.services)
                        (mkUploadFile "notes.txt" "Paris") Demo.world).2)
      "Where?" 3 = Ok docs ∧
    (∀ d, d ∈ docs → page_content d ∈ chunks).
Proof.
  destruct (chat_after_upload_uses_new_corpus (H := Demo.services)
              (mkUploadFile "notes.txt" "Paris") (mkChatRequest "Where?")
              Demo.world
              (upload_file (H := Demo.services)
                 (mkUploadFile "notes.txt" "Paris") Demo.world).2
              (chat (H := Demo.services) (mkChatRequest "Where?")
                 (upload_file (H := Demo.services)
                    (mkUploadFile "notes.txt" "Paris") Demo.world).2).2
              "File processed successfully" (mkChatResponse "Paris" None))
    as (chunks & docs & Hchunks & Hdocs & Hsub & _).
  - vm_compute; reflexivity.
  - vm_compute; reflexivity.
  - exists chunks, docs. split; [exact Hchunks|]. split; [exact Hdocs|exact Hsub].
Defined.

Lemma chat_failure_changes_nothing_witness :
  (chat (H := Demo.offline) (mkChatRequest "Where?") Demo.world).2 = Demo.world.
Proof.
  apply (chat_failure_changes_nothing (H := Demo.offline)
           (mkChatRequest "Where?") Demo.world
           (chat (H := Demo.offline) (mkChatRequest "Where?") Demo.world).2
           (HTTPException 500 "backend unreachable")).
  vm_compute; reflexivity.
Defined.

Lemma chat_answer_is_agent_output_witness :
  ∃ docs,
    Agent.get_similar_docs (H := Demo.services) Demo.manager "Where?" 3 = Ok docs ∧
    length docs = Nat.min 3 (FAISS.ntotal (Agent.vector_store Demo.manager)).
Proof.
  destruct (chat_answer_is_agent_output (H := Demo.services)
              (mkChatRequest "Where?") Demo.world
              (chat (H := Demo.services) (mkChatRequest "Where?") Demo.world).2
              (mkChatResponse "Paris" None))
    as (docs & Hdocs & Hlen & _).
  - vm_compute; reflexivity.
  - exists docs. split; [exact Hdocs|exact Hlen].
Defined.

Lemma run_store_never_empty_witness :
  FAISS.texts (Agent.vector_store (agent_manager
    (serve (H := Demo.services)
       [POST_upload (mkUploadFile "empty.txt" ""); GET_test] Demo.world).2))
  ≠ [].
Proof.
  eapply (run_store_never_empty (H := Demo.services) ∅ Demo.environ ∅
            [POST_upload (mkUploadFile "empty.txt" ""); GET_test]).
  vm_compute; reflexivity.
Defined.

Lemma run_memory_is_chat_log_witness :
  ∃ prompts,
    length prompts = 2%nat ∧
    messages (serve (H := Demo.services)
                [POST_chat (mkChatRequest "Where?"); GET_test;
                 POST_chat (mkChatRequest "When?")] Demo.world).2
    = exchanges (zip prompts ["Paris"; "Paris"]).
Proof.
  destruct (run_memory_is_chat_log (H := Demo.services) ∅ Demo.environ ∅
              [POST_chat (mkChatRequest "Where?"); GET_test;
               POST_chat (mkChatRequest "When?")]
              (serve (H := Demo.services)
                 [POST_chat (mkChatRequest "Where?"); GET_test;
                  POST_chat (mkChatRequest "When?")] Demo.world).1
              (serve (H := Demo.services)
                 [POST_chat (mkChatRequest "Where?"); GET_test;
                  POST_chat (mkChatRequest "When?")] Demo.world).2)
    as (prompts & Hlen & Hmem & _).
  - vm_compute; reflexivity.
  - exists prompts. split; [exact Hlen|exact Hmem].
Defined.

Lemma handle_status_witness :
  agent_manager
    (handle (H := Demo.offline) (POST_chat (mkChatRequest "Where?")) Demo.world).2
  = Demo.manager.
Proof.
  destruct (handle_status (H := Demo.offline)
              (POST_chat (mkChatRequest "Where?")) Demo.world
              (handle (H := Demo.offline) (POST_chat (mkChatRequest "Where?"))
                 Demo.world).2
              (mkResponse 500 (DetailBody "backend unreachable")))
    as (_ & _ & Hsame & _).
  - vm_compute; reflexivity.
  - apply Hsame. apply Nat.eqb_neq. reflexivity.
Defined.

End Evaluation_more.
